(** * analyze.py: dependency graphs from cmake, pip and cargo into Memgraph

    A shallow embedding of [analyze.py].  The script is glue around external
    tools, so the embedding is an exception-and-state monad over a small
    world (working directory, file tree, database contents) together with an
    environment [Env] that answers for everything outside the script: what a
    spawned process does, whether a database statement gets through, how
    [read_dot] parses a text and what [nx_to_cypher] yields for a graph.
    The environment is indexed by a clock that advances at every external
    interaction, so a tool or the database may answer differently each time
    it is asked. *)

From Stdlib Require Import ZArith String Ascii List Bool Lia Permutation.
From stdpp Require Import base option list strings gmap fin_maps.

Local Open Scope string_scope.
Local Open Scope list_scope.
Local Open Scope Z_scope.

(** ** Python values, exceptions *)

(** Attribute values of a networkx node: DOT attributes are strings, and the
    loader adds one list of strings. *)
Inductive pyval :=
| PStr (s : string)
| PList (l : list string).

(** The exceptions the script can meet.  All of them derive from Python's
    [Exception], so [except Exception] catches every one. *)
Inductive exn :=
| FileNotFoundError
| NotADirectoryError
| IsADirectoryError
| CalledProcessError (argv : list string) (returncode : Z)
| KeyError (key : string)
| AttributeError (attr : string)
| DotParseError
| DatabaseError.

Inductive result (A : Type) :=
| Ok (a : A)
| Raise (e : exn).
Arguments Ok {A} a.
Arguments Raise {A} e.

(** ** Paths and the file tree *)

(** A path is kept as its list of components and a flag for a leading
    slash; [os.path.join], [os.path.basename] and resolution against the
    working directory are list operations on it. *)
Record path := Path { absolute : bool; comps : list string }.

Definition path_join (a : path) (name : string) : path :=
  Path (absolute a) (comps a ++ [name]).

Definition basename (p : path) : string := default "" (last (comps p)).

Definition resolve (cwd : list string) (p : path) : list string :=
  if absolute p then comps p else cwd ++ comps p.

Fixpoint join_slash (l : list string) : string :=
  match l with
  | [] => ""
  | [x] => x
  | x :: r => x +:+ "/" +:+ join_slash r
  end.

Definition path_str (p : path) : string :=
  (if absolute p then "/" else "") +:+ join_slash (comps p).

Inductive fnode :=
| Dir
| File (content : string).

Definition is_file (n : fnode) : bool :=
  match n with File _ => true | Dir => false end.

Definition is_dir (n : fnode) : bool :=
  match n with Dir => true | File _ => false end.

(** ** Dependency graphs *)

Record graph := Graph {
  nodes : list (string * gmap string pyval);
  edges : list (string * string)
}.

(** ** World, events, environment *)

Record World := MkWorld {
  clock : nat;
  cwd : list string;
  fs : gmap (list string) fnode;
  dbs : gmap (string * Z) (list string)
}.

(** Function entries of the generate, render and load steps, as a profiling
    hook would report them. *)
Inductive call :=
| Call_generate_cmake_dot (working_dir output_file : path)
| Call_generate_pip_dot (working_dir output_file : path)
| Call_generate_cargo_dot (working_dir output_file : path)
| Call_dot_to_png (input_file output_file : path)
| Call_dot_to_memgraph (file : path) (labels : list string)
    (host : string) (port : Z).

Inductive event :=
| EvCall (c : call)
| EvChdir (target : list string)
| EvOpenW (target : list string)
| EvReadDot (target : list string)
| EvSpawn (argv : list string) (returncode : option Z)
| EvShell (cmd : string)
| EvExecute (host : string) (port : Z) (stmt : string) (ok : bool)
| EvPrint (msg : string)
| EvWarning (msg : string).

(** What spawning a process comes to: the binary cannot be started, or it
    runs, leaves some files behind and exits with a status and an output. *)
Inductive proc_outcome :=
| SpawnError
| Exits (returncode : Z) (stdout : string)
    (writes : list (list string * string)).

Record Env := MkEnv {
  WORK_DIRECTORY : list string;
  db_ok : nat → string → Z → string → bool;
  proc : nat → list string → list string → gmap (list string) fnode →
         proc_outcome;
  parse_dot : string → option graph;
  nx_to_cypher : graph → list string;
  scan_order : list (string * fnode) → list (string * fnode);
  scan_order_perm : ∀ l, Permutation (scan_order l) l
}.

(** ** The monad *)

Record out (A : Type) := Out {
  res : result A;
  world : World;
  events : list event
}.
Arguments Out {A} res world events.
Arguments res {A} o.
Arguments world {A} o.
Arguments events {A} o.

Definition M (A : Type) : Type := World → out A.

Definition ret {A} (a : A) : M A := λ w, Out (Ok a) w [].

Definition raise {A} (e : exn) : M A := λ w, Out (Raise e) w [].

Definition bind {A B} (m : M A) (k : A → M B) : M B := λ w,
  let o := m w in
  match res o with
  | Ok a => let o' := k a (world o) in
            Out (res o') (world o') (events o ++ events o')
  | Raise e => Out (Raise e) (world o) (events o)
  end.

(** [try: m / except Exception: h]. *)
Definition try_except {A} (m : M A) (h : exn → M A) : M A := λ w,
  let o := m w in
  match res o with
  | Ok a => o
  | Raise e => let o' := h e (world o) in
               Out (res o') (world o') (events o ++ events o')
  end.

Declare Scope py_scope.
Delimit Scope py_scope with py.
Notation "x <- m ;; k" := (bind m (λ x, k))
  (at level 100, m at next level, right associativity) : py_scope.
Notation "m ;; k" := (bind m (λ _, k))
  (at level 100, right associativity) : py_scope.
Local Open Scope py_scope.

Definition emit (e : event) : M unit := λ w, Out (Ok tt) w [e].

Definition get : M World := λ w, Out (Ok w) w [].

Definition tick : M nat := λ w,
  Out (Ok (clock w)) (MkWorld (S (clock w)) (cwd w) (fs w) (dbs w)) [].

Definition set_cwd (d : list string) : M unit := λ w,
  Out (Ok tt) (MkWorld (clock w) d (fs w) (dbs w)) [].

Definition set_fs (f : gmap (list string) fnode) : M unit := λ w,
  Out (Ok tt) (MkWorld (clock w) (cwd w) f (dbs w)) [].

Definition set_dbs (d : gmap (string * Z) (list string)) : M unit := λ w,
  Out (Ok tt) (MkWorld (clock w) (cwd w) (fs w) d) [].

(** [for x in l: body x]. *)
Fixpoint for_each {A} (l : list A) (body : A → M unit) : M unit :=
  match l with
  | [] => ret tt
  | x :: r => body x ;; for_each r body
  end.

(** ** Strings *)

Fixpoint mem_char (c : ascii) (chars : string) : bool :=
  match chars with
  | EmptyString => false
  | String d r => Ascii.eqb c d || mem_char c r
  end.

Fixpoint lstrip (chars s : string) : string :=
  match s with
  | EmptyString => EmptyString
  | String c r => if mem_char c chars then lstrip chars r else s
  end.

Fixpoint rstrip (chars s : string) : string :=
  match s with
  | EmptyString => EmptyString
  | String c r =>
      match rstrip chars r with
      | EmptyString => if mem_char c chars then EmptyString
                       else String c EmptyString
      | r' => String c r'
      end
  end.

(** [s.strip(chars)] *)
Definition py_strip (chars s : string) : string :=
  rstrip chars (lstrip chars s).

Fixpoint is_prefix (p s : string) : bool :=
  match p, s with
  | EmptyString, _ => true
  | String a p', String b s' => Ascii.eqb a b && is_prefix p' s'
  | String _ _, EmptyString => false
  end.

(** [needle in hay] on strings. *)
Fixpoint py_in (needle hay : string) : bool :=
  is_prefix needle hay ||
  match hay with
  | EmptyString => false
  | String _ r => py_in needle r
  end.

Definition hex_digit (n : N) : ascii :=
  match n with
  | 0 => "0" | 1 => "1" | 2 => "2" | 3 => "3" | 4 => "4" | 5 => "5"
  | 6 => "6" | 7 => "7" | 8 => "8" | 9 => "9" | 10 => "a" | 11 => "b"
  | 12 => "c" | 13 => "d" | 14 => "e" | _ => "f"
  end%N%char.

(** One byte of [repr(bytes)], for the quote character [q] in use. *)
Definition repr_byte (q c : ascii) : string :=
  let n := N_of_ascii c in
  if Ascii.eqb c q || Ascii.eqb c "\"
  then String "\" (String c EmptyString)
  else if (n =? 9)%N then "\t"
  else if (n =? 10)%N then "\n"
  else if (n =? 13)%N then "\r"
  else if (n <? 32)%N || (127 <=? n)%N
  then String "\" (String "x" (String (hex_digit (n / 16))
         (String (hex_digit (n mod 16)) EmptyString)))
  else String c EmptyString.

Fixpoint repr_body (q : ascii) (b : string) : string :=
  match b with
  | EmptyString => EmptyString
  | String c r => repr_byte q c +:+ repr_body q r
  end.

Definition dquote : ascii := ascii_of_nat 34.
Definition squote : ascii := "'"%char.

(** [str(b)] for a bytes object [b]: its printed form [b'...']. *)
Definition str_of_bytes (b : string) : string :=
  let q := if mem_char squote b && negb (mem_char dquote b)
           then dquote else squote in
  String "b" (String q (repr_body q b +:+ String q EmptyString)).

(** ** The shell command of clean mode

    [rm *.dot* *.png] is run by [sh]: each word after [rm] is a pattern that
    the shell expands against the names of the working directory, where [*]
    matches any run of characters, every other character stands for itself,
    and a name that begins with a period is matched only by a pattern that
    begins with a period.  [rm] then removes the operands that are files;
    a directory or a pattern without a match earns a message and nothing
    else.  [sh] and [rm] themselves are taken to be present. *)

Fixpoint glob (p : string) : string → bool :=
  match p with
  | EmptyString => λ s, match s with EmptyString => true | _ => false end
  | String c p' =>
      if Ascii.eqb c "*"
      then fix star (s : string) : bool :=
             glob p' s ||
             match s with
             | EmptyString => false
             | String _ s' => star s'
             end
      else λ s, match s with
                | String d s' => Ascii.eqb c d && glob p' s'
                | EmptyString => false
                end
  end.

Definition hidden (name : string) : bool := is_prefix "." name.

Definition sh_match (pat name : string) : bool :=
  (if hidden name then is_prefix "." pat else true) && glob pat name.

Fixpoint strip_prefix (d k : list string) : option (list string) :=
  match d, k with
  | [], _ => Some k
  | x :: d', y :: k' => if decide (x = y) then strip_prefix d' k' else None
  | _ :: _, [] => None
  end.

(** Is the entry [k ↦ n] one that [rm pats] run in [dir] removes? *)
Definition rm_target (pats : list string) (dir : list string)
    (k : list string) (n : fnode) : bool :=
  match strip_prefix dir k with
  | Some [name] => is_file n && existsb (λ p, sh_match p name) pats
  | _ => false
  end.

Definition rm_globs (pats : list string) (dir : list string)
    (f : gmap (list string) fnode) : gmap (list string) fnode :=
  filter (λ kn, rm_target pats dir kn.1 kn.2 = false) f.

Section Program.

Context (env : Env).

(** ** Primitives: os, subprocess, gqlalchemy, networkx, logging *)

Definition os_chdir (p : path) : M unit :=
  w <- get ;;
  let k := resolve (cwd w) p in
  emit (EvChdir k) ;;
  match fs w !! k with
  | Some Dir => set_cwd k
  | Some (File _) => raise NotADirectoryError
  | None => raise FileNotFoundError
  end.

Definition os_path_isfile (p : path) : M bool :=
  w <- get ;;
  ret (match fs w !! resolve (cwd w) p with
       | Some (File _) => true
       | _ => false
       end).

(** The entries of a directory, as [(name, node)] pairs. *)
Definition listing (f : gmap (list string) fnode) (d : list string)
    : list (string * fnode) :=
  omap (λ kn, match strip_prefix d kn.1 with
              | Some [name] => Some (name, kn.2)
              | _ => None
              end) (map_to_list f).

(** [os.scandir(p)]: each entry with its [path] and its [is_dir()]. *)
Definition os_scandir (p : path) : M (list (path * bool)) :=
  w <- get ;;
  let k := resolve (cwd w) p in
  match fs w !! k with
  | Some Dir =>
      ret (map (λ e, (path_join p e.1, is_dir e.2))
               (scan_order env (listing (fs w) k)))
  | Some (File _) => raise NotADirectoryError
  | None => raise FileNotFoundError
  end.

(** [open(p, "w")]: the handle is the resolved path. *)
Definition open_w (p : path) : M (list string) :=
  w <- get ;;
  let k := resolve (cwd w) p in
  emit (EvOpenW k) ;;
  match fs w !! removelast k, fs w !! k with
  | Some Dir, Some Dir => raise IsADirectoryError
  | Some Dir, _ => set_fs (<[k := File ""]> (fs w)) ;; ret k
  | Some (File _), _ => raise NotADirectoryError
  | None, _ => raise FileNotFoundError
  end.

Inductive stdout_mode :=
| Inherit
| ToFile (handle : list string)
| Capture.

Record CompletedProcess := Completed {
  returncode : Z;
  stdout : option string
}.

Definition write_files (ws : list (list string * string))
    (f : gmap (list string) fnode) : gmap (list string) fnode :=
  foldl (λ acc kc, <[kc.1 := File kc.2]> acc) f ws.

(** [subprocess.run(argv, check=..., stdout=... / capture_output=True)] *)
Definition subprocess_run (argv : list string) (check : bool)
    (mode : stdout_mode) : M CompletedProcess :=
  t <- tick ;;
  w <- get ;;
  match proc env t argv (cwd w) (fs w) with
  | SpawnError =>
      emit (EvSpawn argv None) ;; raise FileNotFoundError
  | Exits code output ws =>
      let f := write_files ws (fs w) in
      set_fs (match mode with
              | ToFile h => <[h := File output]> f
              | _ => f
              end) ;;
      emit (EvSpawn argv (Some code)) ;;
      if check && negb (code =? 0)
      then raise (CalledProcessError argv code)
      else ret (Completed code (match mode with
                                | Capture => Some output
                                | _ => None
                                end))
  end.

(** [subprocess.run(cmd, shell=True)], for the one command the script has. *)
Definition subprocess_run_shell (cmd : string) : M unit :=
  emit (EvShell cmd) ;;
  match String.words cmd with
  | "rm" :: pats =>
      w <- get ;;
      set_fs (rm_globs pats (cwd w) (fs w))
  | _ => ret tt
  end.

Definition probe_stmt : string := "MATCH (n) RETURN n LIMIT 1;".
Definition delete_stmt : string := "MATCH (n) DETACH DELETE n;".

(** What a statement that got through does to the stored data: the wipe
    empties it, the probe only reads, anything else is kept as stored. *)
Definition apply_stmt (stmt : string) (content : list string) : list string :=
  if decide (stmt = delete_stmt) then []
  else if decide (stmt = probe_stmt) then content
  else content ++ [stmt].

Definition db_content (d : gmap (string * Z) (list string))
    (host : string) (port : Z) : list string :=
  default [] (d !! (host, port)).

(** [Memgraph(host, port).execute(stmt)] *)
Definition memgraph_execute (host : string) (port : Z) (stmt : string)
    : M unit :=
  t <- tick ;;
  if db_ok env t host port stmt
  then
    w <- get ;;
    set_dbs (<[(host, port) := apply_stmt stmt (db_content (dbs w) host port)]>
               (dbs w)) ;;
    emit (EvExecute host port stmt true)
  else
    emit (EvExecute host port stmt false) ;; raise DatabaseError.

(** [networkx.drawing.nx_pydot.read_dot(p)] *)
Definition read_dot (p : path) : M graph :=
  w <- get ;;
  let k := resolve (cwd w) p in
  emit (EvReadDot k) ;;
  match fs w !! k with
  | Some (File text) =>
      match parse_dot env text with
      | Some g => ret g
      | None => raise DotParseError
      end
  | Some Dir => raise IsADirectoryError
  | None => raise FileNotFoundError
  end.

Definition logging_warning (msg : string) : M unit := emit (EvWarning msg).
Definition print (msg : string) : M unit := emit (EvPrint msg).

(** ** analyze.py *)

Definition MG_HOST : string := "127.0.0.1".
Definition MG_PORT : Z := 7687.

Definition quote_chars : string := String squote (String dquote EmptyString).

(** The body of the loop of [dot_to_mg_graph] on one node. *)
Definition annotate (labels : list string) (data : gmap string pyval)
    : result (gmap string pyval) :=
  let data1 := <["labels" := PList labels]> data in
  match data1 !! "label" with
  | None => Raise (KeyError "label")
  | Some (PList _) => Raise (AttributeError "strip")
  | Some (PStr s) => Ok (<["name" := PStr (py_strip quote_chars s)]> data1)
  end.

Fixpoint annotate_nodes (labels : list string)
    (l : list (string * gmap string pyval))
    : result (list (string * gmap string pyval)) :=
  match l with
  | [] => Ok []
  | (id, data) :: r =>
      match annotate labels data with
      | Raise e => Raise e
      | Ok data' =>
          match annotate_nodes labels r with
          | Raise e => Raise e
          | Ok r' => Ok ((id, data') :: r')
          end
      end
  end.

Definition dot_to_mg_graph (p : path) (labels : list string) : M graph :=
  g <- read_dot p ;;
  match annotate_nodes labels (nodes g) with
  | Ok l => ret (Graph l (edges g))
  | Raise e => raise e
  end.

Definition is_memgraph_ready (host : string) (port : Z) : M bool :=
  try_except
    (memgraph_execute host port probe_stmt ;; ret true)
    (λ _, ret false).

Definition dot_to_memgraph (p : path) (labels : list string)
    (host : string) (port : Z) : M unit :=
  emit (EvCall (Call_dot_to_memgraph p labels host port)) ;;
  ready <- is_memgraph_ready "127.0.0.1" 7687 ;;
  if negb ready
  then logging_warning "Memgraph is not ready."
  else
    g <- dot_to_mg_graph p labels ;;
    for_each (nx_to_cypher env g) (λ query, memgraph_execute host port query).

Definition is_cmake_ready : M bool :=
  try_except
    (subprocess_run ["cmake"; "--version"] false Inherit ;; ret true)
    (λ _, print "cmake is not available, please installed it." ;; ret false).

Definition generate_cmake_dot (working_dir output_file : path) : M unit :=
  emit (EvCall (Call_generate_cmake_dot working_dir output_file)) ;;
  os_chdir working_dir ;;
  subprocess_run ["cmake"; "--graphviz=" +:+ path_str output_file; ".."]
    false Inherit ;;
  ret tt.

Definition generate_pip_dot (working_dir output_file : path) : M unit :=
  emit (EvCall (Call_generate_pip_dot working_dir output_file)) ;;
  os_chdir working_dir ;;
  f <- open_w output_file ;;
  subprocess_run ["pipdeptree"; "--graph-output"; "dot"] false (ToFile f) ;;
  ret tt.

Definition is_cargo_ready : M bool :=
  found <- try_except
    (subprocess_run ["cargo"; "--version"] true Inherit ;; ret true)
    (λ _, print "cargo is not available, please installed it." ;; ret false) ;;
  if negb found then ret false
  else
    status <- subprocess_run ["cargo"; "install"; "--list"] true Capture ;;
    if negb (returncode status =? 0)
    then print "Check of the cargo-deps failed, check installation of cargo." ;;
         ret false
    else if py_in "cargo-deps" (str_of_bytes (default "" (stdout status)))
    then ret true
    else print "cargo-deps is not available, please installed it." ;;
         ret false.

Definition generate_cargo_dot (working_dir output_file : path) : M unit :=
  emit (EvCall (Call_generate_cargo_dot working_dir output_file)) ;;
  os_chdir working_dir ;;
  f <- open_w output_file ;;
  subprocess_run ["cargo"; "deps"] false (ToFile f) ;;
  ret tt.

Definition dot_to_png (input_file output_file : path) : M unit :=
  emit (EvCall (Call_dot_to_png input_file output_file)) ;;
  subprocess_run ["dot"; "-Tpng"; "-o"; path_str output_file;
                  path_str input_file] false Inherit ;;
  ret tt.

Record Args := MkArgs {
  clean : bool;
  cpp_dir : option path;
  python_dir : option path;
  rust_dir : option path
}.

Definition work_dir : path := Path true (WORK_DIRECTORY env).

(** Lines 98-102 of [main]: the native-build steps. *)
Definition cpp_steps (d : path) : M unit :=
  let cppdeps_dot := path_join work_dir "cppdeps.dot" in
  let cppdeps_png := path_join work_dir "cppdeps.png" in
  generate_cmake_dot d cppdeps_dot ;;
  dot_to_png cppdeps_dot cppdeps_png ;;
  dot_to_memgraph cppdeps_dot ["Cpp"] "127.0.0.1" 7687.

(** Lines 97-102 of [main]. *)
Definition cpp_part (args : Args) : M unit :=
  cmake <- is_cmake_ready ;;
  match cmake, cpp_dir args with
  | true, Some d => cpp_steps d
  | _, _ => ret tt
  end.

(** Lines 107-111 of [main]: the language-package steps. *)
Definition pip_steps : M unit :=
  let pydeps_dot := path_join work_dir "pydeps.dot" in
  let pydeps_png := path_join work_dir "pydeps.png" in
  generate_pip_dot work_dir pydeps_dot ;;
  dot_to_png pydeps_dot pydeps_png ;;
  dot_to_memgraph pydeps_dot ["Python"] "127.0.0.1" 7687.

(** The body of the loop of lines 114-122 on one module. *)
Definition cargo_module (module : path) : M unit :=
  manifest <- os_path_isfile (path_join module "Cargo.toml") ;;
  if negb manifest then ret tt
  else
    let name := basename module in
    let rsdeps_dot := path_join work_dir ("rsdeps_" +:+ name +:+ ".dot") in
    let rsdeps_png := path_join work_dir ("rsdeps_" +:+ name +:+ ".png") in
    generate_cargo_dot module rsdeps_dot ;;
    dot_to_png rsdeps_dot rsdeps_png ;;
    dot_to_memgraph rsdeps_dot ["Rust"] "127.0.0.1" 7687.

(** Lines 114-122 of [main]: the loop over the modules. *)
Definition cargo_steps (d : path) : M unit :=
  scanned <- os_scandir d ;;
  for_each (map fst (filter (λ e, e.2 = true) scanned)) cargo_module.

(** Lines 113-122 of [main]. *)
Definition rust_part (args : Args) : M unit :=
  cargo <- is_cargo_ready ;;
  match cargo, rust_dir args with
  | true, Some d => cargo_steps d
  | _, _ => ret tt
  end.

Definition main (args : Args) : M unit :=
  cpp_part args ;;
  pip_steps ;;
  rust_part args.

(** The [if __name__ == "__main__":] block, after [parse_args]. *)
Definition script (args : Args) : M unit :=
  if clean args
  then
    os_chdir work_dir ;;
    subprocess_run_shell "rm *.dot* *.png"
  else
    ready <- is_memgraph_ready MG_HOST MG_PORT ;;
    (if ready then memgraph_execute MG_HOST MG_PORT delete_stmt else ret tt) ;;
    main args.

End Program.

(** ** Notions the properties are stated with *)

(** The database contents that a sequence of events builds: only the
    statements that got through count. *)
Definition db_step (d : gmap (string * Z) (list string)) (e : event)
    : gmap (string * Z) (list string) :=
  match e with
  | EvExecute host port stmt true =>
      <[(host, port) := apply_stmt stmt (db_content d host port)]> d
  | _ => d
  end.

Definition replay (evs : list event) (d : gmap (string * Z) (list string))
    : gmap (string * Z) (list string) :=
  foldl db_step d evs.

(** The database answers at program start: the probe and the wipe that
    follows it both get through. *)
Definition reachable_at_start (env : Env) (w : World) : Prop :=
  db_ok env (clock w) MG_HOST MG_PORT probe_stmt = true ∧
  db_ok env (S (clock w)) MG_HOST MG_PORT delete_stmt = true.

Fixpoint all_in (chars s : string) : bool :=
  match s with
  | EmptyString => true
  | String c r => mem_char c chars && all_in chars r
  end.

(** In the words of the specification: [r] is [s] with the surrounding
    quote characters removed. *)
Definition quotes_removed (s r : string) : Prop :=
  ∃ pre suf,
    s = pre +:+ r +:+ suf ∧
    all_in quote_chars pre = true ∧
    all_in quote_chars suf = true ∧
    (∀ c r', r = String c r' → mem_char c quote_chars = false) ∧
    (∀ c r', r = r' +:+ String c EmptyString →
             mem_char c quote_chars = false).

Definition has_extension (ext name : string) : Prop :=
  ∃ base, name = base +:+ ext.

(** A node as [dot_to_mg_graph] is to leave it: same identifier, the given
    category labels, the label untouched and the display name derived
    from it. *)
Definition annotated (labels : list string)
    (before after : string * gmap string pyval) : Prop :=
  after.1 = before.1 ∧
  after.2 !! "labels" = Some (PList labels) ∧
  ∃ s, before.2 !! "label" = Some (PStr s) ∧
       after.2 !! "label" = Some (PStr s) ∧
       after.2 !! "name" = Some (PStr (py_strip quote_chars s)) ∧
       quotes_removed s (py_strip quote_chars s).

(** The three calls that make the artifacts of the module at [module]. *)
Definition module_calls (env : Env) (module : path) : list call :=
  let name := basename module in
  let rsdeps_dot := path_join (work_dir env) ("rsdeps_" +:+ name +:+ ".dot") in
  let rsdeps_png := path_join (work_dir env) ("rsdeps_" +:+ name +:+ ".png") in
  [Call_generate_cargo_dot module rsdeps_dot;
   Call_dot_to_png rsdeps_dot rsdeps_png;
   Call_dot_to_memgraph rsdeps_dot ["Rust"] "127.0.0.1" 7687].

(** The same for the subdirectory [name] of [d]. *)
Definition cargo_calls (env : Env) (d : path) (name : string) : list call :=
  module_calls env (path_join d name).

Definition cpp_calls (env : Env) (d : path) : list call :=
  let cppdeps_dot := path_join (work_dir env) "cppdeps.dot" in
  let cppdeps_png := path_join (work_dir env) "cppdeps.png" in
  [Call_generate_cmake_dot d cppdeps_dot;
   Call_dot_to_png cppdeps_dot cppdeps_png;
   Call_dot_to_memgraph cppdeps_dot ["Cpp"] "127.0.0.1" 7687].

Definition pip_calls (env : Env) : list call :=
  let pydeps_dot := path_join (work_dir env) "pydeps.dot" in
  let pydeps_png := path_join (work_dir env) "pydeps.png" in
  [Call_generate_pip_dot (work_dir env) pydeps_dot;
   Call_dot_to_png pydeps_dot pydeps_png;
   Call_dot_to_memgraph pydeps_dot ["Python"] "127.0.0.1" 7687].

(** The calls that belong to the native-build steps. *)
Definition native_call (env : Env) (c : call) : Prop :=
  match c with
  | Call_generate_cmake_dot _ _ => True
  | Call_dot_to_png input _ =>
      input = path_join (work_dir env) "cppdeps.dot"
  | Call_dot_to_memgraph _ labels _ _ => labels = ["Cpp"]
  | _ => False
  end.

Definition is_call (e : event) : bool :=
  match e with EvCall _ => true | _ => false end.

(** An immediate subdirectory of [d] that holds a manifest. *)
Definition is_module (f : gmap (list string) fnode) (d : path)
    (name : string) : Prop :=
  f !! (comps d ++ [name]) = Some Dir ∧
  ∃ text, f !! (comps d ++ [name; "Cargo.toml"]) = Some (File text).

(** No process writes a file called [Cargo.toml]. *)
Definition manifests_kept (env : Env) : Prop :=
  ∀ t argv c f code output ws,
    proc env t argv c f = Exits code output ws →
    Forall (λ kc, last kc.1 ≠ Some "Cargo.toml") ws.

(** ** Concrete environments *)

Definition sample_graph : graph :=
  Graph [("a", {["label" := PStr "'a'"]}); ("b", {["label" := PStr "b"]})]
        [("a", "b")].

(** What each command does, looked up by its first two words; a command
    that is not in the table cannot be started. *)
Definition tools_of (table : list (list string * proc_outcome))
    (argv cwd : list string) : proc_outcome :=
  match list_find (λ kv, kv.1 = take 2 argv) table with
  | Some (_, (_, o)) => o
  | None => SpawnError
  end.

(** An environment that answers the same way every time. *)
Definition steady_env (W : list string) (db : string → Z → bool)
    (table : list (list string * proc_outcome))
    (parse : string → option graph) : Env :=
  MkEnv W (λ _ host port _, db host port) (λ _ argv c _, tools_of table argv c)
    parse
    (λ g, map (λ n, "CREATE (:" +:+ n.1 +:+ ");") (nodes g))
    id (λ l, Permutation_refl l).

(** ** Relational summaries of a computation

    [sat R m]: whatever the world, running [m] relates the world before,
    the events of the run and the world after by [R]. *)
Definition sat {A} (R : World → list event → World → Prop) (m : M A) : Prop :=
  ∀ w, R w (events (m w)) (world (m w)).

(** Every event of the run satisfies [P]. *)
Definition emitsR (P : event → Prop) : World → list event → World → Prop :=
  λ _ evs _, Forall P evs.

(** The database moves exactly as the events of the run say. *)
Definition tracksR : World → list event → World → Prop :=
  λ w evs w', dbs w' = replay evs (dbs w).

(** Files called [Cargo.toml] are left as they are. *)
Definition keepsR : World → list event → World → Prop :=
  λ w _ w', ∀ k, last k = Some "Cargo.toml" → fs w' !! k = fs w !! k.

(** A relation that composes along a run. *)
Definition composes (R : World → list event → World → Prop) : Prop :=
  (∀ w, R w [] w) ∧
  (∀ w1 e1 w2 e2 w3, R w1 e1 w2 → R w2 e2 w3 → R w1 (e1 ++ e2) w3).

Definition home_world : World := MkWorld 0 ["home"] ∅ ∅.

(** cmake is installed but its version probe exits with status 1; cargo is
    installed but [cargo install --list] exits with status 101. *)
Definition failing_probes : list (list string * proc_outcome) :=
  [(["cmake"; "--version"], Exits 1 "" []);
   (["cargo"; "--version"], Exits 0 "cargo 1.75.0" []);
   (["cargo"; "install"], Exits 101 "" [])].

Definition env_failing_probes : Env :=
  steady_env ["opt"; "depsy"] (λ _ _, false) failing_probes (λ _, None).

(** cargo is installed, the listing names no plugin and exits with
    status 1. *)
Definition listing_fails : list (list string * proc_outcome) :=
  [(["cargo"; "--version"], Exits 0 "cargo 1.75.0" []);
   (["cargo"; "install"], Exits 1 "" [])].

Definition env_listing_fails : Env :=
  steady_env ["opt"; "depsy"] (λ _ _, false) listing_fails (λ _, None).

Definition no_tools : list (list string * proc_outcome) := [].

Definition pydeps_path : path := Path true ["opt"; "depsy"; "pydeps.dot"].

(** A world in which [pydeps.dot] is there to be loaded. *)
Definition loaded_world : World :=
  MkWorld 0 ["opt"; "depsy"]
    (<[["opt"; "depsy"; "pydeps.dot"] := File "digraph { a -> b }"]>
       (<[["opt"; "depsy"] := Dir]> ∅))
    ∅.

(** Only the default endpoint is down. *)
Definition env_default_down : Env :=
  steady_env ["opt"; "depsy"] (λ host _, negb (String.eqb host "127.0.0.1"))
    no_tools (λ _, Some sample_graph).

(** Only the default endpoint is up. *)
Definition env_default_up : Env :=
  steady_env ["opt"; "depsy"] (λ host _, String.eqb host "127.0.0.1")
    no_tools (λ _, Some sample_graph).

(** What [read_dot] makes of [digraph { a -> b }]: two nodes that the edge
    brings in, neither with an attribute. *)
Definition unlabelled_graph : graph :=
  Graph [("a", ∅); ("b", ∅)] [("a", "b")].

Definition env_unlabelled : Env :=
  steady_env ["opt"; "depsy"] (λ _ _, true) no_tools
    (λ _, Some unlabelled_graph).

(** A working directory with generated files and a hidden image. *)
Definition cluttered_world : World :=
  MkWorld 0 ["home"]
    (<[["opt"; "depsy"; ".cache.png"] := File "png"]>
       (<[["opt"; "depsy"; "pydeps.png"] := File "png"]>
          (<[["opt"; "depsy"; "pydeps.dot"] := File "digraph { a -> b }"]>
             (<[["opt"; "depsy"] := Dir]> ∅))))
    ∅.

Definition clean_args : Args := MkArgs true None None None.

(** An analyze run without and with [--python-dir]. *)
Definition plain_args : Args := MkArgs false None None None.

Definition python_dir_args : Args :=
  MkArgs false None (Some (Path true ["home"; "project"])) None.

(** Every tool is installed and works, the database answers. *)
Definition healthy_tools : list (list string * proc_outcome) :=
  [(["cmake"; "--version"], Exits 0 "cmake version 3.28.1" []);
   (["cmake"; "--graphviz=/opt/depsy/cppdeps.dot"],
    Exits 0 "" [(["opt"; "depsy"; "cppdeps.dot"], "digraph { a -> b }")]);
   (["pipdeptree"; "--graph-output"], Exits 0 "digraph { a -> b }" []);
   (["dot"; "-Tpng"], Exits 0 "" []);
   (["cargo"; "--version"], Exits 0 "cargo 1.75.0" []);
   (["cargo"; "install"], Exits 0 "cargo-deps v1.5.1:" []);
   (["cargo"; "deps"], Exits 0 "digraph { a -> b }" [])].

Definition env_healthy : Env :=
  steady_env ["opt"; "depsy"] (λ _ _, true) healthy_tools
    (λ _, Some sample_graph).

(** [--cpp-dir /nonexistent] and nothing else. *)
Definition args_missing_cpp_dir : Args :=
  MkArgs false (Some (Path true ["nonexistent"])) None None.

(** A directory of Rust projects with two subdirectories, of which only
    [a] has a manifest; the script's directory is there too. *)
Definition rust_world : World :=
  MkWorld 0 ["home"]
    (<[["srv"; "rust"; "a"; "Cargo.toml"] := File "[package]"]>
       (<[["srv"; "rust"; "a"] := Dir]>
          (<[["srv"; "rust"; "b"] := Dir]>
             (<[["srv"; "rust"] := Dir]>
                (<[["opt"; "depsy"] := Dir]> ∅)))))
    ∅.

Definition rust_args : Args :=
  MkArgs false None None (Some (Path true ["srv"; "rust"])).

(** The same directory when both subdirectories have a manifest. *)
Definition rust_world_two : World :=
  MkWorld 0 ["home"]
    (<[["srv"; "rust"; "b"; "Cargo.toml"] := File "[package]"]>
       (fs rust_world))
    ∅.

(** Every tool works, but [cargo deps] fails on every module and prints
    nothing, and [read_dot] cannot parse the empty file that this leaves. *)
Definition cargo_deps_empty : list (list string * proc_outcome) :=
  (["cargo"; "deps"], Exits 101 "" []) :: healthy_tools.

Definition env_cargo_deps_empty : Env :=
  steady_env ["opt"; "depsy"] (λ _ _, true) cargo_deps_empty
    (λ text, if String.eqb text "" then None else Some sample_graph).

(** [--rust-dir rust], a relative path, in a world whose working directory
    is [/srv] and where both subdirectories hold a manifest. *)
Definition relative_rust_args : Args :=
  MkArgs false None None (Some (Path false ["rust"])).

Definition relative_rust_world : World :=
  MkWorld 0 ["srv"] (fs rust_world_two) ∅.

(** The nodes of [sample_graph] as the loader leaves them. *)
Definition sample_annotated : list (string * gmap string pyval) :=
  match annotate_nodes ["Python"] (nodes sample_graph) with
  | Ok l => l
  | Raise _ => []
  end.

(** The database answers the first two times it is asked and never
    again. *)
Definition env_db_drops : Env :=
  MkEnv ["opt"; "depsy"] (λ t _ _ _, Nat.ltb t 2)
    (λ _ argv c _, tools_of healthy_tools argv c)
    (λ _, Some sample_graph)
    (λ g, map (λ n, "CREATE (:" +:+ n.1 +:+ ");") (nodes g))
    id (λ l, Permutation_refl l).

(** A graph whose first node has a label and whose second has none. *)
Definition half_labelled_graph : graph :=
  Graph [("a", {["label" := PStr "a"]}); ("b", ∅)] [("a", "b")].

Definition env_half_labelled : Env :=
  steady_env ["opt"; "depsy"] (λ _ _, true) no_tools
    (λ _, Some half_labelled_graph).

(** A node with an unquoted label and a [name] of its own, which the
    loader overwrites. *)
Definition plain_node : gmap string pyval :=
  <["label" := PStr "numpy"]> (<["name" := PStr "old"]> ∅).

(** ** More relational summaries *)

(** The working directory is left where it was. *)
Definition staysR : World → list event → World → Prop :=
  λ w _ w', cwd w' = cwd w.

(** Every endpoint holds what it held, and possibly more after it. *)
Definition growsR : World → list event → World → Prop :=
  λ w _ w', ∀ host port, ∃ added,
    db_content (dbs w') host port = db_content (dbs w) host port ++ added.

(** [nx_to_cypher] never yields the statement that wipes the database. *)
Definition no_wipe (env : Env) : Prop :=
  ∀ g q, q ∈ nx_to_cypher env g → q ≠ delete_stmt.

(** Every statement of the run is addressed to the default endpoint. *)
Definition default_endpoint (e : event) : Prop :=
  ∀ host port stmt ok,
    e = EvExecute host port stmt ok → host = MG_HOST ∧ port = MG_PORT.

(** [needle] occurs somewhere in [s]. *)
Definition mentions (needle s : string) : Prop :=
  ∃ a b, s = a +:+ needle +:+ b.

(** The database does not answer the first time it is asked and answers
    ever after; it already holds a node. *)
Definition env_db_late : Env :=
  MkEnv ["opt"; "depsy"] (λ t _ _ _, Nat.ltb 0 t)
    (λ _ argv c _, tools_of healthy_tools argv c)
    (λ _, Some sample_graph)
    (λ g, map (λ n, "CREATE (:" +:+ n.1 +:+ ");") (nodes g))
    id (λ l, Permutation_refl l).

Definition old_data_world : World :=
  MkWorld 0 ["home"] (fs loaded_world)
    {[(MG_HOST, MG_PORT) := ["CREATE (:old);"]]}.

(** The database answers the startup probe and then nothing else. *)
Definition env_db_probe_only : Env :=
  MkEnv ["opt"; "depsy"] (λ t _ _ _, Nat.ltb t 1)
    (λ _ argv c _, tools_of healthy_tools argv c)
    (λ _, Some sample_graph)
    (λ g, map (λ n, "CREATE (:" +:+ n.1 +:+ ");") (nodes g))
    id (λ l, Permutation_refl l).

(** The database answers, but there is no DOT file to load. *)
Definition empty_dir_world : World :=
  MkWorld 0 ["opt"; "depsy"] (<[["opt"; "depsy"] := Dir]> ∅) ∅.
(** * Properties *)

(** ** Running the monad *)

Lemma bind_Ok {A B} (m : M A) (k : A → M B) w a :
  res (m w) = Ok a →
  bind m k w = Out (res (k a (world (m w)))) (world (k a (world (m w))))
                   (events (m w) ++ events (k a (world (m w)))).
Proof. intros H. unfold bind. now rewrite H. Qed.

Lemma bind_Raise {A B} (m : M A) (k : A → M B) w e :
  res (m w) = Raise e →
  bind m k w = Out (Raise e) (world (m w)) (events (m w)).
Proof. intros H. unfold bind. now rewrite H. Qed.

Section Sat.

Context (R : World → list event → World → Prop) (HR : composes R).

Lemma sat_ret {A} (a : A) : sat R (ret a).
Proof. intros w. apply HR. Qed.

Lemma sat_raise {A} e : sat R (@raise A e).
Proof. intros w. apply HR. Qed.

Lemma sat_get : sat R get.
Proof. intros w. apply HR. Qed.

Lemma sat_bind {A B} (m : M A) (k : A → M B) :
  sat R m → (∀ a, sat R (k a)) → sat R (bind m k).
Proof.
  intros Hm Hk w. unfold bind.
  destruct (res (m w)) as [a|e] eqn:E; simpl.
  - destruct HR as [_ Ht]. eapply Ht; [apply Hm | apply Hk].
  - apply Hm.
Qed.

Lemma sat_try_except {A} (m : M A) (h : exn → M A) :
  sat R m → (∀ e, sat R (h e)) → sat R (try_except m h).
Proof.
  intros Hm Hh w. unfold try_except.
  destruct (res (m w)) as [a|e] eqn:E; simpl.
  - apply Hm.
  - destruct HR as [_ Ht]. eapply Ht; [apply Hm | apply Hh].
Qed.

Lemma sat_for_each {A} (l : list A) (body : A → M unit) :
  (∀ x, x ∈ l → sat R (body x)) → sat R (for_each l body).
Proof.
  induction l as [|x l IH]; intros Hb; simpl.
  - apply sat_ret.
  - apply sat_bind.
    + apply Hb. left.
    + intros _. apply IH. intros y Hy. apply Hb. now right.
Qed.

End Sat.

Lemma emitsR_composes P : composes (emitsR P).
Proof.
  split; unfold emitsR.
  - constructor.
  - intros _ e1 _ e2 _ H1 H2. apply Forall_app. auto.
Qed.

Lemma replay_app e1 e2 d : replay (e1 ++ e2) d = replay e2 (replay e1 d).
Proof. unfold replay. apply foldl_app. Qed.

Lemma tracksR_composes : composes tracksR.
Proof.
  split; unfold tracksR.
  - reflexivity.
  - intros w1 e1 w2 e2 w3 H1 H2. now rewrite replay_app, <- H1.
Qed.

Lemma keepsR_composes : composes keepsR.
Proof.
  split; unfold keepsR.
  - reflexivity.
  - intros w1 e1 w2 e2 w3 H1 H2 k Hk. now rewrite H2, H1.
Qed.

Create HintDb sat.

#[local] Hint Resolve emitsR_composes tracksR_composes keepsR_composes : sat.

(** One step of a compositional proof: split a sequence, a handler or a
    loop, or case on what a branch looks at. *)
Ltac sat_step :=
  match goal with
  | |- sat _ (ret _) => apply sat_ret; auto with sat
  | |- sat _ (raise _) => apply sat_raise; auto with sat
  | |- sat _ get => apply sat_get; auto with sat
  | |- sat _ (bind _ _) => apply sat_bind; [auto with sat | | intros ?]
  | |- sat _ (try_except _ _) =>
      apply sat_try_except; [auto with sat | | intros ?]
  | |- sat _ (for_each _ _) => apply sat_for_each; [auto with sat | intros ? ?]
  | |- sat _ (match ?x with _ => _ end) => destruct x
  | |- sat _ (if ?b then _ else _) => destruct b
  end.

Section Emits.

Context (env : Env) (P : event → Prop).

Lemma emits_emit e : P e → sat (emitsR P) (emit e).
Proof. intros H w. repeat constructor. exact H. Qed.

Lemma emits_tick : sat (emitsR P) tick.
Proof. intros w. constructor. Qed.

Lemma emits_set_cwd d : sat (emitsR P) (set_cwd d).
Proof. intros w. constructor. Qed.

Lemma emits_set_fs f : sat (emitsR P) (set_fs f).
Proof. intros w. constructor. Qed.

Lemma emits_set_dbs d : sat (emitsR P) (set_dbs d).
Proof. intros w. constructor. Qed.

Hint Resolve emits_emit emits_tick emits_set_cwd emits_set_fs emits_set_dbs
  : sat.

Ltac emits_auto := repeat (first [sat_step | solve [auto with sat]]).

Lemma emits_os_chdir p :
  (∀ k, P (EvChdir k)) → sat (emitsR P) (os_chdir p).
Proof. intros H. unfold os_chdir. emits_auto. Qed.

Lemma emits_os_path_isfile p : sat (emitsR P) (os_path_isfile p).
Proof. unfold os_path_isfile. emits_auto. Qed.

Lemma emits_os_scandir p : sat (emitsR P) (os_scandir env p).
Proof. unfold os_scandir. emits_auto. Qed.

Lemma emits_open_w p :
  (∀ k, P (EvOpenW k)) → sat (emitsR P) (open_w p).
Proof. intros H. unfold open_w. emits_auto. Qed.

Lemma emits_subprocess_run argv check mode :
  (∀ rc, P (EvSpawn argv rc)) →
  sat (emitsR P) (subprocess_run env argv check mode).
Proof. intros H. unfold subprocess_run. emits_auto. Qed.

Lemma emits_memgraph_execute host port stmt :
  (∀ b, P (EvExecute host port stmt b)) →
  sat (emitsR P) (memgraph_execute env host port stmt).
Proof. intros H. unfold memgraph_execute. emits_auto. Qed.

Lemma emits_read_dot p :
  (∀ k, P (EvReadDot k)) → sat (emitsR P) (read_dot env p).
Proof. intros H. unfold read_dot. emits_auto. Qed.

Lemma emits_dot_to_mg_graph p labels :
  (∀ k, P (EvReadDot k)) → sat (emitsR P) (dot_to_mg_graph env p labels).
Proof.
  intros H. unfold dot_to_mg_graph.
  sat_step; [now apply emits_read_dot|]. emits_auto.
Qed.

End Emits.

(** ** The readiness checkers *)

Section Checkers.

Context (env : Env).

(** The database probe in closed form: one statement is tried, and its fate
    is the answer. *)
Lemma is_memgraph_ready_run host port w :
  is_memgraph_ready env host port w =
  let b := db_ok env (clock w) host port probe_stmt in
  Out (Ok b)
      (MkWorld (S (clock w)) (cwd w) (fs w)
         (if b then <[(host, port) := db_content (dbs w) host port]> (dbs w)
          else dbs w))
      [EvExecute host port probe_stmt b].
Proof.
  unfold is_memgraph_ready, try_except, memgraph_execute, bind, tick. simpl.
  destruct (db_ok env (clock w) host port probe_stmt); reflexivity.
Qed.

Lemma is_memgraph_ready_total host port w :
  ∃ b, res (is_memgraph_ready env host port w) = Ok b.
Proof. rewrite is_memgraph_ready_run. simpl. eauto. Qed.

(** [is_cmake_ready] in closed form: only a binary that cannot be started
    makes it answer [False]; the exit status is not looked at. *)
Lemma is_cmake_ready_run w :
  is_cmake_ready env w =
  match proc env (clock w) ["cmake"; "--version"] (cwd w) (fs w) with
  | SpawnError =>
      Out (Ok false) (MkWorld (S (clock w)) (cwd w) (fs w) (dbs w))
          [EvSpawn ["cmake"; "--version"] None;
           EvPrint "cmake is not available, please installed it."]
  | Exits code _ ws =>
      Out (Ok true)
          (MkWorld (S (clock w)) (cwd w) (write_files ws (fs w)) (dbs w))
          [EvSpawn ["cmake"; "--version"] (Some code)]
  end.
Proof.
  unfold is_cmake_ready, try_except, subprocess_run, bind, tick. simpl.
  destruct (proc env (clock w) ["cmake"; "--version"] (cwd w) (fs w));
    reflexivity.
Qed.

Lemma is_cmake_ready_total w : ∃ b, res (is_cmake_ready env w) = Ok b.
Proof.
  rewrite is_cmake_ready_run.
  destruct (proc env (clock w) ["cmake"; "--version"] (cwd w) (fs w));
    simpl; eauto.
Qed.

End Checkers.

(** C2.  The readiness checkers are meant never to raise and to answer
    [False] on every failure of the probed tool.  Evaluated where the
    probes exit with a non-zero status: [is_cmake_ready] answers [True]
    although [cmake --version] exited with status 1, and [is_cargo_ready]
    raises [CalledProcessError] when [cargo install --list] exits with
    status 101, because that call has [check=True] and stands outside the
    [try]. *)
Theorem readiness_checkers_nonzero_exit :
  res (is_cmake_ready env_failing_probes home_world) = Ok true ∧
  res (is_cargo_ready env_failing_probes home_world) =
    Raise (CalledProcessError ["cargo"; "install"; "--list"] 101).
Proof. split; reflexivity. Qed.

(** C8.  With cargo installed and a listing that does not name the plugin,
    [is_cargo_ready] is meant to answer [False].  Evaluated where the
    listing command exits with status 1: the answer is no boolean at all,
    the call raises. *)
Theorem is_cargo_ready_listing_fails :
  res (is_cargo_ready env_listing_fails home_world) ≠ Ok false ∧
  res (is_cargo_ready env_listing_fails home_world) =
    Raise (CalledProcessError ["cargo"; "install"; "--list"] 1).
Proof. split; [discriminate | reflexivity]. Qed.

(** ** The loader *)

(** C4.  If the readiness check fails, [dot_to_memgraph] returns normally
    after one failed probe and one warning: no statement reaches any
    database, the DOT file is not even read, nothing is retried and nothing
    is kept for later. *)
Theorem dot_to_memgraph_skips_when_not_ready env p labels host port w :
  res (is_memgraph_ready env "127.0.0.1" 7687 w) = Ok false →
  let o := dot_to_memgraph env p labels host port w in
  res o = Ok tt ∧
  events o = [EvCall (Call_dot_to_memgraph p labels host port);
              EvExecute "127.0.0.1" 7687 probe_stmt false;
              EvWarning "Memgraph is not ready."] ∧
  dbs (world o) = dbs w ∧
  fs (world o) = fs w.
Proof.
  intros H. unfold dot_to_memgraph.
  rewrite (bind_Ok _ _ w tt) by reflexivity. cbn [emit world events res].
  rewrite (bind_Ok _ _ w false) by exact H.
  rewrite is_memgraph_ready_run in *. simpl in H. injection H as Hb.
  rewrite Hb. simpl. auto.
Qed.

Lemma dot_to_memgraph_skips_witness :
  res (is_memgraph_ready env_failing_probes "127.0.0.1" 7687 home_world)
    = Ok false ∧
  let o := dot_to_memgraph env_failing_probes
             (Path true ["opt"; "depsy"; "pydeps.dot"]) ["Python"]
             "10.0.0.5" 7688 home_world in
  res o = Ok tt ∧
  events o = [EvCall (Call_dot_to_memgraph
                        (Path true ["opt"; "depsy"; "pydeps.dot"])
                        ["Python"] "10.0.0.5" 7688);
              EvExecute "127.0.0.1" 7687 probe_stmt false;
              EvWarning "Memgraph is not ready."] ∧
  dbs (world o) = dbs home_world ∧
  fs (world o) = fs home_world.
Proof.
  split; [reflexivity|].
  apply (dot_to_memgraph_skips_when_not_ready env_failing_probes).
  reflexivity.
Defined.

(** ** The command line *)

(** C9.  Two runs that differ only in the value of [--python-dir], given
    or not, are the same run: same result, same events, same world after.
    The flag has its place in the parsed arguments and nothing reads it. *)
Theorem python_dir_is_never_read env c cpp rust py1 py2 w :
  script env (MkArgs c cpp py1 rust) w = script env (MkArgs c cpp py2 rust) w.
Proof. reflexivity. Qed.

(** C10.  Whatever host and port [dot_to_memgraph] is given, the probe that
    decides whether to load goes to 127.0.0.1:7687, and every statement
    after it goes to the given host and port.  So the gate can disagree
    with the database written to: with only the default endpoint down the
    load is skipped although the target answers, and with only the default
    endpoint up the load is started and the first insert raises. *)
Theorem readiness_gate_ignores_endpoint :
  (∀ env p labels host port w,
     ∃ rest,
       events (dot_to_memgraph env p labels host port w) =
         EvCall (Call_dot_to_memgraph p labels host port)
         :: EvExecute "127.0.0.1" 7687 probe_stmt
              (db_ok env (clock w) "127.0.0.1" 7687 probe_stmt)
         :: rest ∧
       Forall (λ e, ∀ h q s b, e = EvExecute h q s b → h = host ∧ q = port)
              rest) ∧
  ((∀ t s, db_ok env_default_down t "10.0.0.5" 7688 s = true) ∧
   let o := dot_to_memgraph env_default_down pydeps_path ["Python"]
              "10.0.0.5" 7688 loaded_world in
   res o = Ok tt ∧
   events o = [EvCall (Call_dot_to_memgraph pydeps_path ["Python"]
                         "10.0.0.5" 7688);
               EvExecute "127.0.0.1" 7687 probe_stmt false;
               EvWarning "Memgraph is not ready."]) ∧
  ((∀ t s, db_ok env_default_up t "10.0.0.5" 7688 s = false) ∧
   let o := dot_to_memgraph env_default_up pydeps_path ["Python"]
              "10.0.0.5" 7688 loaded_world in
   res o = Raise DatabaseError ∧
   events o = [EvCall (Call_dot_to_memgraph pydeps_path ["Python"]
                         "10.0.0.5" 7688);
               EvExecute "127.0.0.1" 7687 probe_stmt true;
               EvReadDot ["opt"; "depsy"; "pydeps.dot"];
               EvExecute "10.0.0.5" 7688 "CREATE (:a);" false]).
Proof.
  split; [|split].
  - intros env p labels host port w. unfold dot_to_memgraph.
    rewrite (bind_Ok _ _ w tt) by reflexivity. cbn [emit world events res].
    destruct (is_memgraph_ready_total env "127.0.0.1" 7687 w) as [b Hb].
    rewrite (bind_Ok _ _ w b) by exact Hb.
    rewrite is_memgraph_ready_run. cbn [world events res app].
    eexists. split; [reflexivity|].
    match goal with |- Forall ?P (events (?m ?w')) =>
      change (emitsR P w' (events (m w')) (world (m w'))); generalize w';
      change (sat (emitsR P) m)
    end.
    destruct (negb b).
    + apply emits_emit. discriminate.
    + sat_step.
      * apply emits_dot_to_mg_graph. discriminate.
      * sat_step. apply emits_memgraph_execute. now intros ? ? ? ? ? [= -> -> _ _].
  - split; [reflexivity|]. vm_compute. auto.
  - split; [reflexivity|]. vm_compute. auto.
Qed.

(** ** Stripping quote characters *)

Lemma append_cons c (a b : string) : String c a +:+ b = String c (a +:+ b).
Proof. reflexivity. Qed.

Lemma append_nil (b : string) : EmptyString +:+ b = b.
Proof. reflexivity. Qed.

Lemma lstrip_app chars s :
  ∃ pre, s = pre +:+ lstrip chars s ∧ all_in chars pre = true.
Proof.
  induction s as [|c r [pre [E H]]]; simpl.
  - now exists EmptyString.
  - destruct (mem_char c chars) eqn:Hc.
    + exists (String c pre). rewrite append_cons. simpl. rewrite Hc, H.
      split; [now f_equal|reflexivity].
    + now exists EmptyString.
Qed.

Lemma lstrip_head chars s c r :
  lstrip chars s = String c r → mem_char c chars = false.
Proof.
  induction s as [|a s IH]; simpl; [discriminate|].
  destruct (mem_char a chars) eqn:Ha; [exact IH|].
  now intros [= -> _].
Qed.

Lemma rstrip_app chars s :
  ∃ suf, s = rstrip chars s +:+ suf ∧ all_in chars suf = true.
Proof.
  induction s as [|c r [suf [E H]]]; simpl.
  - now exists EmptyString.
  - destruct (rstrip chars r) as [|b x] eqn:Er.
    + rewrite append_nil in E. subst suf.
      destruct (mem_char c chars) eqn:Hc.
      * exists (String c r). rewrite append_nil. simpl. now rewrite Hc, H.
      * exists r. now rewrite append_cons, append_nil.
    + exists suf. rewrite append_cons. split; [now f_equal|exact H].
Qed.

Lemma rstrip_last chars s c r :
  rstrip chars s = r +:+ String c EmptyString → mem_char c chars = false.
Proof.
  revert r. induction s as [|a s IH]; intros r; simpl.
  - destruct r; discriminate.
  - destruct (rstrip chars s) as [|b x] eqn:Es.
    + destruct (mem_char a chars) eqn:Ha.
      * destruct r; discriminate.
      * destruct r as [|a' r]; [rewrite append_nil | rewrite append_cons].
        -- now intros [= ->].
        -- intros [= _ E]. destruct r; discriminate.
    + destruct r as [|a' r]; [rewrite append_nil | rewrite append_cons].
      * discriminate.
      * intros [= _ E]. now apply (IH r).
Qed.

Lemma app_assoc_string (a b c : string) : (a +:+ b) +:+ c = a +:+ (b +:+ c).
Proof. induction a; [reflexivity|]. rewrite !append_cons. now f_equal. Qed.

(** The [strip] of the source does what the specification words say. *)
Lemma py_strip_quotes_removed s : quotes_removed s (py_strip quote_chars s).
Proof.
  unfold py_strip.
  destruct (lstrip_app quote_chars s) as [pre [E1 H1]].
  destruct (rstrip_app quote_chars (lstrip quote_chars s)) as [suf [E2 H2]].
  exists pre, suf. repeat split; auto.
  - now rewrite <- E2.
  - intros c r' Hr. rewrite Hr, append_cons in E2.
    now apply lstrip_head in E2.
  - intros c r' Hr. now apply rstrip_last in Hr.
Qed.

(** ** Annotating the nodes *)

Lemma annotate_labelled labels data s :
  data !! "label" = Some (PStr s) →
  annotate labels data =
    Ok (<["name" := PStr (py_strip quote_chars s)]>
          (<["labels" := PList labels]> data)).
Proof.
  intros H. unfold annotate.
  rewrite lookup_insert_ne by discriminate. now rewrite H.
Qed.

Lemma annotate_unlabelled labels data :
  data !! "label" = None → annotate labels data = Raise (KeyError "label").
Proof.
  intros H. unfold annotate.
  rewrite lookup_insert_ne by discriminate. now rewrite H.
Qed.

Lemma annotate_nodes_labelled labels l :
  (∀ n, n ∈ l → ∃ s, n.2 !! "label" = Some (PStr s)) →
  ∃ l', annotate_nodes labels l = Ok l' ∧ Forall2 (annotated labels) l l'.
Proof.
  induction l as [|[id data] l IH]; intros H; simpl.
  - exists []. split; [reflexivity|constructor].
  - destruct (H (id, data)) as [s Hs]; [left|]. simpl in Hs.
    destruct IH as [l' [E F]].
    { intros n Hn. apply H. now right. }
    rewrite (annotate_labelled _ _ _ Hs), E.
    eexists. split; [reflexivity|]. constructor; [|exact F].
    split; [reflexivity|]. simpl. split.
    + rewrite lookup_insert_ne by discriminate. apply lookup_insert_eq.
    + exists s. split; [exact Hs|]. split.
      * now rewrite !lookup_insert_ne by discriminate.
      * split; [apply lookup_insert_eq | apply py_strip_quotes_removed].
Qed.

(** C1, as amended.  For a DOT file that [read_dot] parses into a graph
    whose nodes all carry a label, [dot_to_mg_graph] returns that graph with
    the same nodes in the same order and the same edges, every node having
    its category attribute equal to the given labels and its display name
    equal to its label with the surrounding quote characters removed. *)
Theorem dot_to_mg_graph_annotates env p labels w text g :
  fs w !! resolve (cwd w) p = Some (File text) →
  parse_dot env text = Some g →
  (∀ n, n ∈ nodes g → ∃ s, n.2 !! "label" = Some (PStr s)) →
  ∃ l, res (dot_to_mg_graph env p labels w) = Ok (Graph l (edges g)) ∧
       Forall2 (annotated labels) (nodes g) l.
Proof.
  intros Hf Hp Hl.
  destruct (annotate_nodes_labelled labels (nodes g) Hl) as [l [E F]].
  exists l. split; [|exact F].
  unfold dot_to_mg_graph, read_dot, bind, get, emit. simpl.
  rewrite Hf, Hp. simpl. now rewrite E.
Qed.

Lemma dot_to_mg_graph_annotates_witness :
  ∃ l, res (dot_to_mg_graph env_default_up pydeps_path ["Python"]
              loaded_world) = Ok (Graph l (edges sample_graph)) ∧
       Forall2 (annotated ["Python"]) (nodes sample_graph) l.
Proof.
  apply (dot_to_mg_graph_annotates env_default_up pydeps_path ["Python"]
           loaded_world "digraph { a -> b }" sample_graph).
  - reflexivity.
  - reflexivity.
  - intros n Hn. apply list_elem_of_In in Hn. simpl in Hn.
    destruct Hn as [<-|[<-|[]]]; simpl; eexists; reflexivity.
Defined.

(** C1 as stated fails on a DOT file whose nodes have no label, such as
    [digraph { a -> b }]: the lookup of the label raises [KeyError] and no
    graph is produced. *)
Lemma dot_to_mg_graph_unlabelled_node :
  res (dot_to_mg_graph env_unlabelled pydeps_path ["Python"] loaded_world)
    = Raise (KeyError "label") ∧
  ¬ ∃ g, res (dot_to_mg_graph env_unlabelled pydeps_path ["Python"]
                loaded_world) = Ok g.
Proof.
  assert (E : res (dot_to_mg_graph env_unlabelled pydeps_path ["Python"]
                     loaded_world) = Raise (KeyError "label")).
  { vm_compute. reflexivity. }
  split; [exact E|]. intros [g Hg]. rewrite E in Hg. discriminate.
Qed.

(** ** The database follows the events *)

Section Tracks.

Context (env : Env).

Lemma tracks_emit e : (∀ d, db_step d e = d) → sat tracksR (emit e).
Proof. intros H w. unfold tracksR. simpl. now rewrite H. Qed.

Lemma tracks_tick : sat tracksR tick.
Proof. intros w. reflexivity. Qed.

Lemma tracks_set_cwd d : sat tracksR (set_cwd d).
Proof. intros w. reflexivity. Qed.

Lemma tracks_set_fs f : sat tracksR (set_fs f).
Proof. intros w. reflexivity. Qed.

Lemma tracks_memgraph_execute host port stmt :
  sat tracksR (memgraph_execute env host port stmt).
Proof.
  intros w. unfold tracksR, memgraph_execute, bind, tick. simpl.
  destruct (db_ok env (clock w) host port stmt); reflexivity.
Qed.

Hint Resolve tracks_tick tracks_set_cwd tracks_set_fs
  tracks_memgraph_execute : sat.
Hint Extern 1 (sat tracksR (emit _)) =>
  apply tracks_emit; reflexivity : sat.

Ltac tracks_auto := repeat (first [solve [auto with sat] | sat_step]).

Lemma tracks_dot_to_memgraph p labels host port :
  sat tracksR (dot_to_memgraph env p labels host port).
Proof.
  unfold dot_to_memgraph, is_memgraph_ready, logging_warning,
    dot_to_mg_graph, read_dot.
  tracks_auto.
Qed.

Lemma tracks_subprocess_run argv check mode :
  sat tracksR (subprocess_run env argv check mode).
Proof. unfold subprocess_run. tracks_auto. Qed.

Lemma tracks_os_chdir p : sat tracksR (os_chdir p).
Proof. unfold os_chdir. tracks_auto. Qed.

Lemma tracks_open_w p : sat tracksR (open_w p).
Proof. unfold open_w. tracks_auto. Qed.

Hint Resolve tracks_dot_to_memgraph tracks_subprocess_run tracks_os_chdir
  tracks_open_w : sat.

Lemma tracks_main args : sat tracksR (main env args).
Proof.
  unfold main, cpp_part, rust_part, is_cmake_ready, is_cargo_ready,
    cpp_steps, pip_steps, cargo_steps, cargo_module, generate_cmake_dot, generate_pip_dot,
    generate_cargo_dot, dot_to_png, os_scandir, os_path_isfile, print.
  tracks_auto.
Qed.

End Tracks.

Lemma db_content_insert d k v host port :
  db_content (<[k := v]> d) host port =
  if decide (k = (host, port)) then v else db_content d host port.
Proof.
  unfold db_content. destruct (decide (k = (host, port))) as [->|Hne].
  - now rewrite lookup_insert_eq.
  - now rewrite lookup_insert_ne.
Qed.

(** What an endpoint ends up holding depends on what it held, not on the
    other endpoints. *)
Lemma replay_content_local evs host port : ∀ d d',
  db_content d host port = db_content d' host port →
  db_content (replay evs d) host port = db_content (replay evs d') host port.
Proof.
  induction evs as [|e evs IH]; intros d d' H; [exact H|].
  apply IH. destruct e; try exact H.
  destruct ok; [|exact H]. cbn [db_step].
  rewrite !db_content_insert.
  destruct (decide ((host0, port0) = (host, port))) as [[= -> ->]|]; [|exact H].
  now rewrite H.
Qed.

(** ** Analyze mode and the database *)



(** ** Clean mode *)

Lemma strip_prefix_app d r : strip_prefix d (d ++ r) = Some r.
Proof.
  induction d as [|x d IH]; simpl; [reflexivity|].
  now rewrite decide_True.
Qed.

Lemma glob_star_here p s : glob p s = true → glob (String "*" p) s = true.
Proof. intros H. destruct s; simpl; now rewrite H. Qed.

Lemma glob_star_later p c s :
  glob (String "*" p) s = true → glob (String "*" p) (String c s) = true.
Proof. intros H. simpl in *. rewrite H. apply orb_true_r. Qed.

(** A pattern that begins with a star lets any text run before what the
    rest of it matches. *)
Lemma glob_star_app p base s :
  glob p s = true → glob (String "*" p) (base +:+ s) = true.
Proof.
  intros H. induction base as [|c base IH].
  - rewrite append_nil. now apply glob_star_here.
  - rewrite append_cons. now apply glob_star_later.
Qed.

Lemma rm_patterns_cover name :
  hidden name = false →
  has_extension ".dot" name ∨ has_extension ".png" name →
  existsb (λ p, sh_match p name) ["*.dot*"; "*.png"] = true.
Proof.
  intros Hh [[base ->]|[base ->]]; cbn [existsb]; unfold sh_match;
    rewrite Hh; cbn [andb].
  - now rewrite (glob_star_app ".dot*" base ".dot").
  - rewrite (glob_star_app ".png" base ".png") by reflexivity.
    now rewrite orb_true_r.
Qed.

(** Clean mode in closed form. *)
Lemma script_clean_run env args w :
  clean args = true →
  fs w !! WORK_DIRECTORY env = Some Dir →
  script env args w =
  Out (Ok tt)
      (MkWorld (clock w) (WORK_DIRECTORY env)
         (rm_globs ["*.dot*"; "*.png"] (WORK_DIRECTORY env) (fs w)) (dbs w))
      [EvChdir (WORK_DIRECTORY env); EvShell "rm *.dot* *.png"].
Proof.
  intros Hc Hd. unfold script. rewrite Hc.
  unfold os_chdir, subprocess_run_shell, bind, get, emit, work_dir.
  cbn [res world events resolve absolute comps cwd fs].
  rewrite Hd. reflexivity.
Qed.




(** ** Which steps a run calls *)

Lemma bind_emit {B} e (k : unit → M B) w :
  bind (emit e) k w = Out (res (k tt w)) (world (k tt w)) (e :: events (k tt w)).
Proof. reflexivity. Qed.

Lemma bind_Ok_inv {A B} (m : M A) (k : A → M B) w b :
  res (bind m k w) = Ok b →
  ∃ a, res (m w) = Ok a ∧ res (k a (world (m w))) = Ok b.
Proof.
  unfold bind. destruct (res (m w)) as [a|e]; simpl; [eauto|discriminate].
Qed.

Lemma events_bind_l {A B} (m : M A) (k : A → M B) w e :
  e ∈ events (m w) → e ∈ events (bind m k w).
Proof.
  intros H. unfold bind. destruct (res (m w)); simpl; [|exact H].
  apply elem_of_app. now left.
Qed.

Lemma events_bind_r {A B} (m : M A) (k : A → M B) w a e :
  res (m w) = Ok a → e ∈ events (k a (world (m w))) →
  e ∈ events (bind m k w).
Proof.
  intros Ha H. rewrite (bind_Ok _ _ _ _ Ha). simpl.
  apply elem_of_app. now right.
Qed.

Lemma emits_elem {A} (P : event → Prop) (m : M A) w e :
  sat (emitsR P) m → e ∈ events (m w) → P e.
Proof. intros Hm He. specialize (Hm w). eapply Forall_forall in Hm; eauto. Qed.

Section Calls.

(** [P] holds of every event that is not a function entry. *)
Context (env : Env) (P : event → Prop) (HP : ∀ e, is_call e = false → P e).

Lemma calls_is_cmake_ready : sat (emitsR P) (is_cmake_ready env).
Proof.
  unfold is_cmake_ready, print.
  repeat first [sat_step | apply emits_subprocess_run; intros
               | apply emits_emit]; now apply HP.
Qed.

Lemma calls_is_cargo_ready : sat (emitsR P) (is_cargo_ready env).
Proof.
  unfold is_cargo_ready, print.
  repeat first [sat_step | apply emits_subprocess_run; intros
               | apply emits_emit]; now apply HP.
Qed.

Lemma calls_dot_to_memgraph p labels host port :
  P (EvCall (Call_dot_to_memgraph p labels host port)) →
  sat (emitsR P) (dot_to_memgraph env p labels host port).
Proof.
  intros Hc. unfold dot_to_memgraph, is_memgraph_ready, logging_warning.
  sat_step; [now apply emits_emit|].
  repeat first [sat_step | apply emits_memgraph_execute; intros
               | apply emits_dot_to_mg_graph; intros
               | apply emits_emit]; now apply HP.
Qed.

Lemma calls_dot_to_png input output :
  P (EvCall (Call_dot_to_png input output)) →
  sat (emitsR P) (dot_to_png env input output).
Proof.
  intros Hc. unfold dot_to_png.
  sat_step; [now apply emits_emit|].
  repeat first [sat_step | apply emits_subprocess_run; intros]; now apply HP.
Qed.

Lemma calls_generate_cmake_dot wd output :
  P (EvCall (Call_generate_cmake_dot wd output)) →
  sat (emitsR P) (generate_cmake_dot env wd output).
Proof.
  intros Hc. unfold generate_cmake_dot.
  sat_step; [now apply emits_emit|].
  repeat first [sat_step | apply emits_subprocess_run; intros
               | apply emits_os_chdir; intros]; now apply HP.
Qed.

Lemma calls_generate_pip_dot wd output :
  P (EvCall (Call_generate_pip_dot wd output)) →
  sat (emitsR P) (generate_pip_dot env wd output).
Proof.
  intros Hc. unfold generate_pip_dot.
  sat_step; [now apply emits_emit|].
  repeat first [sat_step | apply emits_subprocess_run; intros
               | apply emits_os_chdir; intros
               | apply emits_open_w; intros]; now apply HP.
Qed.

Lemma calls_generate_cargo_dot wd output :
  P (EvCall (Call_generate_cargo_dot wd output)) →
  sat (emitsR P) (generate_cargo_dot env wd output).
Proof.
  intros Hc. unfold generate_cargo_dot.
  sat_step; [now apply emits_emit|].
  repeat first [sat_step | apply emits_subprocess_run; intros
               | apply emits_os_chdir; intros
               | apply emits_open_w; intros]; now apply HP.
Qed.

Lemma calls_cpp_steps d :
  (∀ c, c ∈ cpp_calls env d → P (EvCall c)) →
  sat (emitsR P) (cpp_steps env d).
Proof.
  intros Hc. unfold cpp_steps.
  sat_step; [apply calls_generate_cmake_dot|sat_step];
    [|apply calls_dot_to_png|apply calls_dot_to_memgraph];
    apply Hc; unfold cpp_calls; set_solver.
Qed.

Lemma calls_pip_steps :
  (∀ c, c ∈ pip_calls env → P (EvCall c)) →
  sat (emitsR P) (pip_steps env).
Proof.
  intros Hc. unfold pip_steps.
  sat_step; [apply calls_generate_pip_dot|sat_step];
    [|apply calls_dot_to_png|apply calls_dot_to_memgraph];
    apply Hc; unfold pip_calls; set_solver.
Qed.

Lemma calls_cargo_module m :
  (∀ c, c ∈ module_calls env m → P (EvCall c)) →
  sat (emitsR P) (cargo_module env m).
Proof.
  intros Hc. unfold cargo_module.
  sat_step; [apply emits_os_path_isfile|].
  sat_step; [sat_step|].
  sat_step; [apply calls_generate_cargo_dot|sat_step];
    [|apply calls_dot_to_png|apply calls_dot_to_memgraph];
    apply Hc; unfold module_calls; set_solver.
Qed.

Lemma calls_rust_part args :
  (∀ m c, c ∈ module_calls env m → P (EvCall c)) →
  sat (emitsR P) (rust_part env args).
Proof.
  intros Hc. unfold rust_part, cargo_steps.
  sat_step; [apply calls_is_cargo_ready|].
  repeat first [sat_step | apply emits_os_scandir].
  apply calls_cargo_module. apply Hc.
Qed.

Lemma calls_cpp_part args :
  (∀ d c, c ∈ cpp_calls env d → P (EvCall c)) →
  sat (emitsR P) (cpp_part env args).
Proof.
  intros Hc. unfold cpp_part.
  sat_step; [apply calls_is_cmake_ready|].
  repeat sat_step. apply calls_cpp_steps. apply Hc.
Qed.

End Calls.

Lemma events_bind_inv {A B} (m : M A) (k : A → M B) w e :
  e ∈ events (bind m k w) →
  e ∈ events (m w) ∨
  ∃ a, res (m w) = Ok a ∧ e ∈ events (k a (world (m w))).
Proof.
  unfold bind. destruct (res (m w)) as [a|x]; simpl; [|now left].
  intros H. apply elem_of_app in H as [H|H]; [now left|right; eauto].
Qed.

(** Three steps in a row that each announce themselves: if the row
    completes, all three were called. *)
Lemma three_steps_complete (m1 m2 m3 : M unit) c1 c2 c3 w :
  (∀ w, EvCall c1 ∈ events (m1 w)) →
  (∀ w, EvCall c2 ∈ events (m2 w)) →
  (∀ w, EvCall c3 ∈ events (m3 w)) →
  res ((m1 ;; m2 ;; m3) w) = Ok tt →
  ∀ c, c ∈ [c1; c2; c3] → EvCall c ∈ events ((m1 ;; m2 ;; m3) w).
Proof.
  intros H1 H2 H3 H c Hc.
  apply bind_Ok_inv in H as [a1 [E1 H]].
  apply bind_Ok_inv in H as [a2 [E2 _]].
  apply elem_of_cons in Hc as [->|Hc]; [apply events_bind_l, H1|].
  eapply events_bind_r; [exact E1|].
  apply elem_of_cons in Hc as [->|Hc]; [apply events_bind_l, H2|].
  eapply events_bind_r; [exact E2|].
  apply elem_of_cons in Hc as [->|Hc]; [apply H3|].
  now apply elem_of_nil in Hc.
Qed.

Section Heads.

Context (env : Env).

Lemma generate_cmake_dot_head wd output w :
  EvCall (Call_generate_cmake_dot wd output)
    ∈ events (generate_cmake_dot env wd output w).
Proof. unfold generate_cmake_dot. rewrite bind_emit. left. Qed.

Lemma generate_pip_dot_head wd output w :
  EvCall (Call_generate_pip_dot wd output)
    ∈ events (generate_pip_dot env wd output w).
Proof. unfold generate_pip_dot. rewrite bind_emit. left. Qed.

Lemma generate_cargo_dot_head wd output w :
  EvCall (Call_generate_cargo_dot wd output)
    ∈ events (generate_cargo_dot env wd output w).
Proof. unfold generate_cargo_dot. rewrite bind_emit. left. Qed.

Lemma dot_to_png_head input output w :
  EvCall (Call_dot_to_png input output)
    ∈ events (dot_to_png env input output w).
Proof. unfold dot_to_png. rewrite bind_emit. left. Qed.

Lemma dot_to_memgraph_head p labels host port w :
  EvCall (Call_dot_to_memgraph p labels host port)
    ∈ events (dot_to_memgraph env p labels host port w).
Proof. unfold dot_to_memgraph. rewrite bind_emit. left. Qed.

Lemma cpp_steps_complete d w :
  res (cpp_steps env d w) = Ok tt →
  ∀ c, c ∈ cpp_calls env d → EvCall c ∈ events (cpp_steps env d w).
Proof.
  apply three_steps_complete; intros;
    [apply generate_cmake_dot_head | apply dot_to_png_head
    | apply dot_to_memgraph_head].
Qed.

Lemma pip_steps_complete w :
  res (pip_steps env w) = Ok tt →
  ∀ c, c ∈ pip_calls env → EvCall c ∈ events (pip_steps env w).
Proof.
  apply three_steps_complete; intros;
    [apply generate_pip_dot_head | apply dot_to_png_head
    | apply dot_to_memgraph_head].
Qed.

End Heads.

Lemma path_join_inj a x y : path_join a x = path_join a y → x = y.
Proof.
  unfold path_join. intros [= H]. apply app_inv_head in H. now injection H.
Qed.

(** Case analysis on membership in a list that is written out. *)
Ltac elems H :=
  cbv zeta in H;
  repeat (apply elem_of_cons in H as [->|H]);
  try (now apply elem_of_nil in H).

Lemma pip_calls_not_native env c : c ∈ pip_calls env → ¬ native_call env c.
Proof.
  unfold pip_calls. intros Hc. elems Hc; simpl; try tauto.
  - intros H. apply path_join_inj in H. discriminate.
  - discriminate.
Qed.

Lemma module_calls_not_native env m c :
  c ∈ module_calls env m → ¬ native_call env c.
Proof.
  unfold module_calls. intros Hc. elems Hc; simpl; try tauto.
  - intros H. apply path_join_inj in H. discriminate.
  - discriminate.
Qed.

(** C6, as amended.  In analyze mode a native-build step is called if and
    only if the cmake readiness check succeeds and [--cpp-dir] was given,
    and when that part completes all three of generate, render and load
    were called.  The language-package steps stand under no condition of
    their own: they are started if and only if the native-build part did
    not raise, and whenever [main] returns normally all three of them were
    called, the load with the label [Python]. *)
Theorem main_native_and_pip_steps env args w :
  ((∃ c, native_call env c ∧ EvCall c ∈ events (main env args w)) ↔
     res (is_cmake_ready env w) = Ok true ∧ is_Some (cpp_dir args)) ∧
  (res (cpp_part env args w) = Ok tt →
   res (is_cmake_ready env w) = Ok true →
   ∀ d, cpp_dir args = Some d →
        ∀ c, c ∈ cpp_calls env d → EvCall c ∈ events (main env args w)) ∧
  (EvCall (Call_generate_pip_dot (work_dir env)
             (path_join (work_dir env) "pydeps.dot"))
     ∈ events (main env args w) ↔
   res (cpp_part env args w) = Ok tt) ∧
  (res (main env args w) = Ok tt →
   ∀ c, c ∈ pip_calls env → EvCall c ∈ events (main env args w)).
Proof.
  destruct (is_cmake_ready_total env w) as [b Hb].
  assert (Hchk : ∀ c, EvCall c ∉ events (is_cmake_ready env w)).
  { intros c Hc.
    assert (Hs : sat (emitsR (λ e, is_call e = false)) (is_cmake_ready env))
      by now apply calls_is_cmake_ready.
    pose proof (emits_elem _ _ _ _ Hs Hc). discriminate. }
  assert (Hrest : ∀ w' c,
            EvCall c ∈ events ((pip_steps env ;; rust_part env args) w') →
            ¬ native_call env c).
  { assert (Hs : sat (emitsR (λ e, ∀ c, e = EvCall c → ¬ native_call env c))
                   (pip_steps env ;; rust_part env args)).
    { sat_step.
      - apply calls_pip_steps; [now intros e He c -> |].
        intros c H c' [= <-]. now apply pip_calls_not_native.
      - apply calls_rust_part; [now intros e He c -> |].
        intros m c H c' [= <-]. now apply module_calls_not_native in H. }
    intros w' c Hc. exact (emits_elem _ _ _ _ Hs Hc c eq_refl). }
  unfold main. split; [split|split; [|split; [split|]]].
  - intros [c [Hn Hc]].
    apply events_bind_inv in Hc as [Hc|[[] [_ Hc]]];
      [|now apply Hrest in Hc].
    unfold cpp_part in Hc.
    apply events_bind_inv in Hc as [Hc|[a [Ha Hc]]]; [now apply Hchk in Hc|].
    destruct a; [|now apply elem_of_nil in Hc].
    destruct (cpp_dir args); [|now apply elem_of_nil in Hc].
    rewrite Ha. eauto.
  - intros [Hr [d Hd]].
    exists (Call_generate_cmake_dot d
              (path_join (work_dir env) "cppdeps.dot")).
    split; [exact I|].
    apply events_bind_l. unfold cpp_part.
    eapply events_bind_r; [exact Hr|]. rewrite Hd.
    unfold cpp_steps. apply events_bind_l, generate_cmake_dot_head.
  - intros Hp Hr d Hd c Hc.
    apply events_bind_l. unfold cpp_part in *.
    apply bind_Ok_inv in Hp as [a [Ha Hp]].
    eapply events_bind_r; [exact Ha|].
    rewrite Ha in Hr. injection Hr as ->. rewrite Hd in *.
    now apply cpp_steps_complete.
  - intros Hc.
    apply events_bind_inv in Hc as [Hc|[[] [Ha _]]]; [|exact Ha].
    exfalso.
    assert (Hs : sat (emitsR (λ e, e ≠ EvCall (Call_generate_pip_dot
                                (work_dir env)
                                (path_join (work_dir env) "pydeps.dot"))))
                   (cpp_part env args)).
    { apply calls_cpp_part; [now destruct e|].
      intros d c Hd. unfold cpp_calls in Hd. elems Hd; discriminate. }
    now apply (emits_elem _ _ _ _ Hs Hc).
  - intros Hp. eapply events_bind_r; [exact Hp|].
    apply events_bind_l. unfold pip_steps.
    apply events_bind_l, generate_pip_dot_head.
  - intros Hm c Hc.
    apply bind_Ok_inv in Hm as [[] [Ha Hm]].
    eapply events_bind_r; [exact Ha|].
    apply bind_Ok_inv in Hm as [[] [Hpip _]].
    apply events_bind_l. now apply pip_steps_complete.
Qed.

(** C6 as stated fails when a native-build step raises: with cmake
    installed and a [--cpp-dir] that does not exist, [os.chdir] raises
    [FileNotFoundError], [main] ends there, and none of the
    language-package steps is called. *)
Lemma missing_cpp_dir_stops_pip :
  res (main env_healthy args_missing_cpp_dir loaded_world)
    = Raise FileNotFoundError ∧
  ∀ c, c ∈ pip_calls env_healthy →
       EvCall c ∉ events (main env_healthy args_missing_cpp_dir loaded_world).
Proof.
  split; [vm_compute; reflexivity|].
  assert (E : events (main env_healthy args_missing_cpp_dir loaded_world) =
              [EvSpawn ["cmake"; "--version"] (Some 0);
               EvCall (Call_generate_cmake_dot (Path true ["nonexistent"])
                         (Path true ["opt"; "depsy"; "cppdeps.dot"]));
               EvChdir ["nonexistent"]]).
  { vm_compute. reflexivity. }
  rewrite E. intros c Hc H. unfold pip_calls in Hc.
  elems Hc;
    repeat (apply elem_of_cons in H as [H|H]; [discriminate H|]);
    now apply elem_of_nil in H.
Qed.

(** ** Scanning the directory of Rust projects *)

Lemma strip_prefix_Some d k r : strip_prefix d k = Some r → k = d ++ r.
Proof.
  revert k. induction d as [|x d IH]; intros k; simpl.
  - now intros [= ->].
  - destruct k as [|y k]; [discriminate|].
    destruct (decide (x = y)) as [->|]; [|discriminate].
    intros H. now rewrite (IH _ H).
Qed.

Lemma elem_of_listing f d name n :
  (name, n) ∈ listing f d ↔ f !! (d ++ [name]) = Some n.
Proof.
  unfold listing. rewrite list_elem_of_omap. split.
  - intros [[k x] [Hin Hg]]. simpl in Hg.
    destruct (strip_prefix d k) as [[|y [|? ?]]|] eqn:E; try discriminate.
    injection Hg as -> ->. apply strip_prefix_Some in E as ->.
    now apply elem_of_map_to_list in Hin.
  - intros H. exists (d ++ [name], n). split.
    + now apply elem_of_map_to_list.
    + simpl. now rewrite strip_prefix_app.
Qed.

Lemma elem_of_map {A B} (f : A → B) l y :
  y ∈ map f l ↔ ∃ x, y = f x ∧ x ∈ l.
Proof.
  rewrite list_elem_of_In, in_map_iff. split.
  - intros [x [<- H]]. exists x. now rewrite list_elem_of_In.
  - intros [x [-> H]]. exists x. now rewrite <- list_elem_of_In.
Qed.

(** [os.scandir] in closed form, and what the loop of [main] keeps of it:
    the paths of the immediate subdirectories. *)
Lemma os_scandir_run env p w :
  os_scandir env p w =
  match fs w !! resolve (cwd w) p with
  | Some Dir =>
      Out (Ok (map (λ e, (path_join p e.1, is_dir e.2))
                   (scan_order env (listing (fs w) (resolve (cwd w) p)))))
          w []
  | Some (File _) => Out (Raise NotADirectoryError) w []
  | None => Out (Raise FileNotFoundError) w []
  end.
Proof.
  unfold os_scandir, bind, get. cbn [res world events].
  destruct (fs w !! resolve (cwd w) p) as [[|?]|]; reflexivity.
Qed.

Lemma elem_of_scanned_dirs env d f m :
  m ∈ map fst (filter (λ e : path * bool, e.2 = true)
                 (map (λ e : string * fnode, (path_join d e.1, is_dir e.2))
                    (scan_order env (listing f (comps d))))) ↔
  ∃ name, m = path_join d name ∧ f !! (comps d ++ [name]) = Some Dir.
Proof.
  rewrite elem_of_map. split.
  - intros [[m' b] [-> H]]. apply list_elem_of_filter in H as [Hb H].
    simpl in Hb. subst b.
    apply elem_of_map in H as [[name n] [[= -> Hn] H]].
    rewrite (scan_order_perm env) in H. apply elem_of_listing in H.
    exists name. split; [reflexivity|]. destruct n; [exact H|discriminate].
  - intros [name [-> H]]. exists (path_join d name, true). split; [reflexivity|].
    apply list_elem_of_filter. split; [reflexivity|].
    apply elem_of_map. exists (name, Dir). split; [reflexivity|].
    rewrite (scan_order_perm env). now apply elem_of_listing.
Qed.

(** ** Manifests stay as they are *)

Lemma sat_bind_val {A B} R (m : M A) (k : A → M B) :
  composes R →
  sat R m → (∀ a, (∃ w, res (m w) = Ok a) → sat R (k a)) → sat R (bind m k).
Proof.
  intros HR Hm Hk w. unfold bind.
  destruct (res (m w)) as [a|e] eqn:E; simpl.
  - destruct HR as [_ Ht]. eapply Ht; [apply Hm | apply Hk; eauto].
  - apply Hm.
Qed.

Lemma write_files_lookup_ne ws : ∀ f k,
  Forall (λ kc : list string * string, kc.1 ≠ k) ws →
  write_files ws f !! k = f !! k.
Proof.
  unfold write_files.
  induction ws as [|[k' c] ws IH]; intros f k H; simpl; [reflexivity|].
  inversion H as [|? ? Hne Hws]; subst. simpl in Hne.
  rewrite IH by assumption. now rewrite lookup_insert_ne.
Qed.

Section Keeps.

Context (env : Env) (Hkept : manifests_kept env).

Lemma keeps_emit e : sat keepsR (emit e).
Proof. intros w k Hk. reflexivity. Qed.

Lemma keeps_tick : sat keepsR tick.
Proof. intros w k Hk. reflexivity. Qed.

Lemma keeps_set_cwd d : sat keepsR (set_cwd d).
Proof. intros w k Hk. reflexivity. Qed.

Lemma keeps_set_dbs d : sat keepsR (set_dbs d).
Proof. intros w k Hk. reflexivity. Qed.

Hint Resolve keeps_emit keeps_tick keeps_set_cwd keeps_set_dbs : sat.

Ltac keeps_auto := repeat (first [solve [auto with sat] | sat_step]).

Lemma keeps_os_chdir p : sat keepsR (os_chdir p).
Proof. unfold os_chdir. keeps_auto. Qed.

Lemma keeps_os_path_isfile p : sat keepsR (os_path_isfile p).
Proof. unfold os_path_isfile. keeps_auto. Qed.

Lemma keeps_memgraph_execute host port stmt :
  sat keepsR (memgraph_execute env host port stmt).
Proof. unfold memgraph_execute. keeps_auto. Qed.

Lemma keeps_read_dot p : sat keepsR (read_dot env p).
Proof. unfold read_dot. keeps_auto. Qed.

Hint Resolve keeps_os_chdir keeps_os_path_isfile keeps_memgraph_execute
  keeps_read_dot : sat.

Lemma keeps_dot_to_memgraph p labels host port :
  sat keepsR (dot_to_memgraph env p labels host port).
Proof.
  unfold dot_to_memgraph, is_memgraph_ready, logging_warning,
    dot_to_mg_graph.
  keeps_auto.
Qed.

Lemma keeps_subprocess_run argv check mode :
  (∀ h, mode = ToFile h → last h ≠ Some "Cargo.toml") →
  sat keepsR (subprocess_run env argv check mode).
Proof.
  intros Hmode w. unfold keepsR, subprocess_run, bind, tick, get.
  cbn [res world events clock cwd fs dbs].
  destruct (proc env (clock w) argv (cwd w) (fs w)) as [|code output ws] eqn:E;
    [reflexivity|].
  intros k Hk.
  assert (Hw : write_files ws (fs w) !! k = fs w !! k).
  { apply write_files_lookup_ne.
    eapply Forall_impl; [exact (Hkept _ _ _ _ _ _ _ E)|].
    intros kc Hne Heq. apply Hne. now rewrite Heq. }
  assert (Hfs : ∀ z, fs (world (
              (if check && negb (code =? 0)
               then raise (CalledProcessError argv code)
               else ret (Completed code
                           match mode with Capture => Some output | _ => None end))
              z)) = fs z).
  { intros z. now destruct (check && negb (code =? 0)). }
  unfold set_fs, emit. cbn [res world events clock cwd fs dbs].
  rewrite Hfs. cbn [fs].
  destruct mode as [|h|]; try exact Hw.
  rewrite lookup_insert_ne; [exact Hw|].
  intros Heq. subst k. now apply (Hmode _ eq_refl).
Qed.

Lemma open_w_handle p w h :
  res (open_w p w) = Ok h → h = resolve (cwd w) p.
Proof.
  unfold open_w, bind, get, emit, set_fs, ret, raise.
  cbn [res world events clock cwd fs dbs].
  destruct (fs w !! removelast (resolve (cwd w) p)) as [[|?]|];
    destruct (fs w !! resolve (cwd w) p) as [[|?]|]; simpl; congruence.
Qed.

Lemma keeps_open_w p :
  absolute p = true → last (comps p) ≠ Some "Cargo.toml" →
  sat keepsR (open_w p).
Proof.
  intros Ha Hl w. unfold keepsR, open_w, bind, get, emit, set_fs, ret, raise.
  cbn [res world events clock cwd fs dbs].
  assert (Hr : resolve (cwd w) p = comps p) by (unfold resolve; now rewrite Ha).
  rewrite Hr.
  destruct (fs w !! removelast (comps p)) as [[|?]|];
    destruct (fs w !! comps p) as [[|?]|]; simpl; intros k Hk;
    try reflexivity;
    (rewrite lookup_insert_ne; [reflexivity|intros Heq; subst k; contradiction]).
Qed.

Lemma keeps_dot_to_png input output :
  sat keepsR (dot_to_png env input output).
Proof.
  unfold dot_to_png.
  repeat first [solve [auto with sat] | sat_step
               | apply keeps_subprocess_run; discriminate].
Qed.

Lemma keeps_generate_cargo_dot wd output :
  absolute output = true → last (comps output) ≠ Some "Cargo.toml" →
  sat keepsR (generate_cargo_dot env wd output).
Proof.
  intros Ha Hl. unfold generate_cargo_dot.
  sat_step; [auto with sat|]. sat_step; [auto with sat|].
  apply sat_bind_val; [auto with sat|now apply keeps_open_w|].
  intros h [w Hh]. apply open_w_handle in Hh.
  unfold resolve in Hh. rewrite Ha in Hh. subst h.
  sat_step; [|sat_step].
  apply keeps_subprocess_run. now intros h [= <-].
Qed.

Lemma keeps_cargo_module m : sat keepsR (cargo_module env m).
Proof.
  unfold cargo_module.
  sat_step; [auto with sat|]. sat_step; [sat_step|].
  sat_step; [|sat_step; [apply keeps_dot_to_png|apply keeps_dot_to_memgraph]].
  apply keeps_generate_cargo_dot; [reflexivity|].
  unfold path_join. cbn [comps]. rewrite last_snoc.
  intros H. discriminate H.
Qed.

End Keeps.

(** ** The loop over the modules *)

Lemma os_path_isfile_run p w :
  os_path_isfile p w =
  Out (Ok match fs w !! resolve (cwd w) p with
          | Some (File _) => true
          | _ => false
          end) w [].
Proof. reflexivity. Qed.

Section Modules.

Context (env : Env).

(** A subdirectory without a manifest is passed over in silence. *)
Lemma cargo_module_skip m w :
  (∀ text, fs w !! resolve (cwd w) (path_join m "Cargo.toml")
           ≠ Some (File text)) →
  cargo_module env m w = Out (Ok tt) w [].
Proof.
  intros H. unfold cargo_module, bind. rewrite os_path_isfile_run.
  cbn [res world events].
  destruct (fs w !! resolve (cwd w) (path_join m "Cargo.toml")) as [[|text]|];
    try reflexivity.
  now destruct (H text).
Qed.

(** A subdirectory with a manifest whose three steps complete has had all
    three called. *)
Lemma cargo_module_complete m w text :
  fs w !! resolve (cwd w) (path_join m "Cargo.toml") = Some (File text) →
  res (cargo_module env m w) = Ok tt →
  ∀ c, c ∈ module_calls env m → EvCall c ∈ events (cargo_module env m w).
Proof.
  intros Hf Hr c Hc. unfold cargo_module in *.
  assert (E : res (os_path_isfile (path_join m "Cargo.toml") w) = Ok true)
    by (rewrite os_path_isfile_run; cbn [res]; now rewrite Hf).
  rewrite (bind_Ok _ _ _ _ E) in Hr. cbn [res negb] in Hr.
  eapply events_bind_r; [exact E|]. cbn [negb].
  rewrite os_path_isfile_run in *. cbn [world] in *.
  revert c Hc. apply three_steps_complete; [| | |exact Hr]; intros;
    [apply generate_cargo_dot_head | apply dot_to_png_head
    | apply dot_to_memgraph_head].
Qed.

Lemma cargo_loop d ws :
  absolute d = true → manifests_kept env →
  ∀ L w',
    (∀ key, last key = Some "Cargo.toml" → fs w' !! key = fs ws !! key) →
    (∀ m, m ∈ L → ∃ name, m = path_join d name ∧
                          fs ws !! (comps d ++ [name]) = Some Dir) →
    (∀ c, EvCall c ∈ events (for_each L (cargo_module env) w') →
          ∃ name, is_module (fs ws) d name ∧ c ∈ cargo_calls env d name) ∧
    (res (for_each L (cargo_module env) w') = Ok tt →
     ∀ name, path_join d name ∈ L → is_module (fs ws) d name →
             ∀ c, c ∈ cargo_calls env d name →
                  EvCall c ∈ events (for_each L (cargo_module env) w')).
Proof.
  intros Hd Hkept L. induction L as [|m L IH]; intros w' Hinv HL.
  { split.
    - intros c Hc. now apply elem_of_nil in Hc.
    - intros _ name Hn. now apply elem_of_nil in Hn. }
  destruct (HL m) as [name0 [-> Hdir]]; [left|].
  set (m := path_join d name0) in *.
  set (key := comps d ++ [name0; "Cargo.toml"]).
  assert (Hres : ∀ z, resolve (cwd z) (path_join m "Cargo.toml") = key).
  { intros z. unfold resolve, m, path_join. cbn [absolute comps].
    rewrite Hd. now rewrite <- app_assoc. }
  assert (Hlast : last key = Some "Cargo.toml").
  { unfold key. change [name0; "Cargo.toml"] with ([name0] ++ ["Cargo.toml"]).
    rewrite app_assoc. apply last_snoc. }
  assert (Hnext : ∀ k, last k = Some "Cargo.toml" →
            fs (world (cargo_module env m w')) !! k = fs ws !! k).
  { intros k Hk. rewrite (keeps_cargo_module env Hkept m w' k Hk).
    now apply Hinv. }
  assert (HL' : ∀ x, x ∈ L → ∃ name, x = path_join d name ∧
                                     fs ws !! (comps d ++ [name]) = Some Dir).
  { intros x Hx. apply HL. now right. }
  destruct (IH _ Hnext HL') as [IH1 IH2].
  assert (Hcalls : ∀ c, EvCall c ∈ events (cargo_module env m w') →
                        c ∈ module_calls env m).
  { intros c Hc.
    assert (Hs : sat (emitsR (λ e, ∀ c, e = EvCall c → c ∈ module_calls env m))
                   (cargo_module env m)).
    { apply calls_cargo_module; [now intros e He c' -> |].
      now intros c' H c'' [= <-]. }
    exact (emits_elem _ _ _ _ Hs Hc c eq_refl). }
  cbn [for_each]. split.
  - intros c Hc. apply events_bind_inv in Hc as [Hc|[[] [_ Hc]]].
    + exists name0. split; [|now apply Hcalls].
      split; [exact Hdir|].
      destruct (fs ws !! key) as [[|text]|] eqn:Ekey; [| eauto |];
        (rewrite cargo_module_skip in Hc;
         [now apply elem_of_nil in Hc
         |intros text; rewrite Hres, (Hinv _ Hlast), Ekey; discriminate]).
    + now apply IH1.
  - intros Hr name Hn Hmod c Hc.
    apply bind_Ok_inv in Hr as [[] [Ha Hr]].
    apply elem_of_cons in Hn as [Hn|Hn].
    + apply path_join_inj in Hn as ->.
      destruct Hmod as [_ [text Htext]].
      apply events_bind_l.
      apply (cargo_module_complete m w' text); [|exact Ha|exact Hc].
      rewrite Hres, (Hinv _ Hlast). exact Htext.
    + eapply events_bind_r; [exact Ha|]. now apply (IH2 Hr name).
Qed.

End Modules.


(** An environment made from a table keeps the manifests if no entry of
    the table writes one. *)
Lemma steady_env_keeps_manifests W db table parse :
  Forall (λ kv : list string * proc_outcome,
            match kv.2 with
            | Exits _ _ ws =>
                Forall (λ kc : list string * string,
                          last kc.1 ≠ Some "Cargo.toml") ws
            | SpawnError => True
            end) table →
  manifests_kept (steady_env W db table parse).
Proof.
  intros H t argv c f code output ws. cbn [steady_env proc]. unfold tools_of.
  destruct (list_find _ table) as [[i [k o]]|] eqn:E; [|discriminate].
  intros ->. apply list_find_Some in E as [E _].
  apply list_elem_of_lookup_2 in E.
  eapply Forall_forall in H; [|exact E]. exact H.
Qed.

Lemma env_healthy_keeps_manifests : manifests_kept env_healthy.
Proof.
  apply steady_env_keeps_manifests.
  unfold healthy_tools. repeat constructor. discriminate.
Qed.


(** Two subdirectories of which only [a] has a manifest: the calls of the
    cargo part are the three for [a] and no other. *)
Lemma two_subdirectories_one_manifest :
  res (rust_part env_healthy rust_args rust_world) = Ok tt ∧
  filter (λ e, is_call e = true)
         (events (rust_part env_healthy rust_args rust_world)) =
    map EvCall (cargo_calls env_healthy (Path true ["srv"; "rust"]) "a").
Proof. split; vm_compute; reflexivity. Qed.


(** A run on a database that holds the data of an earlier run: the old
    node is gone and the two nodes of this run are there once. *)
Lemma second_run_replaces_first :
  db_content
    (dbs (world (script env_healthy (MkArgs false None None None)
                   (MkWorld 0 ["home"] (fs loaded_world)
                      {[(MG_HOST, MG_PORT) := ["CREATE (:old);"]]}))))
    MG_HOST MG_PORT = ["CREATE (:a);"; "CREATE (:b);"].
Proof. vm_compute. reflexivity. Qed.

(** ** More on the cargo check *)

(** [subprocess.run] in closed form. *)
Lemma subprocess_run_run env argv check mode w :
  subprocess_run env argv check mode w =
  match proc env (clock w) argv (cwd w) (fs w) with
  | SpawnError =>
      Out (Raise FileNotFoundError)
          (MkWorld (S (clock w)) (cwd w) (fs w) (dbs w))
          [EvSpawn argv None]
  | Exits code output ws =>
      Out (if check && negb (code =? 0)
           then Raise (CalledProcessError argv code)
           else Ok (Completed code match mode with
                                   | Capture => Some output
                                   | _ => None
                                   end))
          (MkWorld (S (clock w)) (cwd w)
             match mode with
             | ToFile h => <[h := File output]> (write_files ws (fs w))
             | _ => write_files ws (fs w)
             end (dbs w))
          [EvSpawn argv (Some code)]
  end.
Proof.
  unfold subprocess_run, bind, tick, get.
  cbn [res world events clock cwd fs dbs].
  destruct (proc env (clock w) argv (cwd w) (fs w)) as [|code output ws];
    [reflexivity|].
  unfold set_fs, emit. cbn [res world events clock cwd fs dbs].
  destruct (check && negb (code =? 0)); reflexivity.
Qed.

(** [is_cargo_ready] once cargo itself is there: the plugin is looked for
    in the printed form of the captured bytes when the listing exits with
    status 0, and any other status of the listing raises. *)
Lemma is_cargo_ready_listing env w o1 ws1 code o2 ws2 :
  proc env (clock w) ["cargo"; "--version"] (cwd w) (fs w) = Exits 0 o1 ws1 →
  proc env (S (clock w)) ["cargo"; "install"; "--list"] (cwd w)
    (write_files ws1 (fs w)) = Exits code o2 ws2 →
  res (is_cargo_ready env w) =
    if code =? 0 then Ok (py_in "cargo-deps" (str_of_bytes o2))
    else Raise (CalledProcessError ["cargo"; "install"; "--list"] code).
Proof.
  intros H1 H2. unfold is_cargo_ready.
  set (probe := try_except _ _).
  assert (E : probe w = Out (Ok true)
                (MkWorld (S (clock w)) (cwd w) (write_files ws1 (fs w)) (dbs w))
                [EvSpawn ["cargo"; "--version"] (Some 0)]).
  { unfold probe, try_except, bind. rewrite subprocess_run_run, H1.
    reflexivity. }
  unfold bind at 1. rewrite E. cbn [res world events negb].
  unfold bind at 1. rewrite subprocess_run_run.
  cbn [clock cwd fs dbs]. rewrite H2. cbn [res world events andb].
  destruct (code =? 0) eqn:Ec; cbn [negb res world events returncode stdout].
  - rewrite Ec. cbn [negb default]. change (id o2) with o2.
    now destruct (py_in "cargo-deps" (str_of_bytes o2)).
  - reflexivity.
Qed.

Lemma is_prefix_app p s : is_prefix p (p +:+ s) = true.
Proof.
  induction p as [|c p IH]; [reflexivity|].
  rewrite append_cons. simpl. now rewrite Ascii.eqb_refl.
Qed.

Lemma py_in_app needle a b : py_in needle (a +:+ needle +:+ b) = true.
Proof.
  induction a as [|c a IH].
  - rewrite append_nil. destruct (needle +:+ b) eqn:E; simpl;
      rewrite <- E, is_prefix_app; reflexivity.
  - rewrite append_cons. simpl. rewrite IH. apply orb_true_r.
Qed.

Lemma py_in_split needle hay :
  py_in needle hay = true → ∃ a b, hay = a +:+ needle +:+ b.
Proof.
  assert (Hp : ∀ p s, is_prefix p s = true → ∃ b, s = p +:+ b).
  { induction p as [|c p IH]; intros s H; [now exists s|].
    destruct s as [|d s]; [discriminate|]. simpl in H.
    apply andb_true_iff in H as [Hc H]. apply Ascii.eqb_eq in Hc as ->.
    destruct (IH _ H) as [b ->]. now exists b. }
  induction hay as [|c hay IH]; simpl; intros H.
  - rewrite orb_false_r in H. apply Hp in H as [b ->]. now exists EmptyString, b.
  - apply orb_true_iff in H as [H|H].
    + apply Hp in H as [b ->]. now exists EmptyString, b.
    + destruct (IH H) as [a [b ->]]. now exists (String c a), b.
Qed.

Lemma repr_body_app q a b :
  repr_body q (a +:+ b) = repr_body q a +:+ repr_body q b.
Proof.
  induction a as [|c a IH]; [reflexivity|].
  rewrite append_cons. simpl. rewrite IH. now rewrite app_assoc_string.
Qed.

(** A listing that names the plugin still names it in its printed form. *)
Lemma plugin_survives_printing listing_output :
  py_in "cargo-deps" listing_output = true →
  py_in "cargo-deps" (str_of_bytes listing_output) = true.
Proof.
  intros H. apply py_in_split in H as [a [b ->]]. unfold str_of_bytes.
  match goal with |- context [String ?c (repr_body ?c _ +:+ _)] =>
    set (q := c) end.
  assert (Hq : repr_body q "cargo-deps" = "cargo-deps").
  { unfold q.
    destruct (mem_char squote (a +:+ "cargo-deps" +:+ b)
              && negb (mem_char dquote (a +:+ "cargo-deps" +:+ b)));
      reflexivity. }
  rewrite !repr_body_app, Hq, !app_assoc_string.
  apply (py_in_app "cargo-deps" (String "b" (String q (repr_body q a)))).
Qed.

(** The converse does not hold: a form feed before [argo-deps] prints as
    [\x0cargo-deps]. *)
Lemma printing_can_make_up_the_plugin :
  py_in "cargo-deps" (String (ascii_of_nat 12) "argo-deps") = false ∧
  py_in "cargo-deps"
    (str_of_bytes (String (ascii_of_nat 12) "argo-deps")) = true.
Proof. split; reflexivity. Qed.

(** ** A relative [--rust-dir] *)

Lemma basename_join d name : basename (path_join d name) = name.
Proof. unfold basename, path_join. cbn [comps]. now rewrite last_snoc. Qed.

(** The calls for a subdirectory carry its name in the DOT file and in the
    image. *)
Lemma cargo_calls_names env d name :
  cargo_calls env d name =
    [Call_generate_cargo_dot (path_join d name)
       (path_join (work_dir env) ("rsdeps_" +:+ name +:+ ".dot"));
     Call_dot_to_png
       (path_join (work_dir env) ("rsdeps_" +:+ name +:+ ".dot"))
       (path_join (work_dir env) ("rsdeps_" +:+ name +:+ ".png"));
     Call_dot_to_memgraph
       (path_join (work_dir env) ("rsdeps_" +:+ name +:+ ".dot"))
       ["Rust"] "127.0.0.1" 7687].
Proof. unfold cargo_calls, module_calls. now rewrite basename_join. Qed.

(** With a relative [--rust-dir] the first module that is processed moves
    the working directory, and the manifest of every later module is then
    looked for in the wrong place: of two modules with a manifest only one
    is processed, and the run ends normally. *)
Lemma relative_rust_dir_loses_modules :
  res (rust_part env_healthy relative_rust_args relative_rust_world) = Ok tt ∧
  filter (λ e, is_call e = true)
         (events (rust_part env_healthy relative_rust_args
                    relative_rust_world)) =
    map EvCall (cargo_calls env_healthy (Path false ["rust"]) "b").
Proof. split; vm_compute; reflexivity. Qed.

(** ** How [main] reaches its cargo part *)

Lemma res_bind_Ok {A B} (m : M A) (k : A → M B) w a :
  res (m w) = Ok a → res (bind m k w) = res (k a (world (m w))).
Proof. intros H. unfold bind. now rewrite H. Qed.

Lemma events_bind_Ok {A B} (m : M A) (k : A → M B) w a :
  res (m w) = Ok a →
  events (bind m k w) = events (m w) ++ events (k a (world (m w))).
Proof. intros H. unfold bind. now rewrite H. Qed.

Lemma world_bind_Ok {A B} (m : M A) (k : A → M B) w a :
  res (m w) = Ok a → world (bind m k w) = world (k a (world (m w))).
Proof. intros H. unfold bind. now rewrite H. Qed.

(** When the native-build part and the language-package steps complete,
    [main] goes on with the cargo part, in the world they leave. *)
Lemma main_reaches_rust_part env args w :
  res (cpp_part env args w) = Ok tt →
  res (pip_steps env (world (cpp_part env args w))) = Ok tt →
  res (main env args w) =
    res (rust_part env args
           (world (pip_steps env (world (cpp_part env args w))))) ∧
  events (main env args w) =
    events (cpp_part env args w) ++
    events (pip_steps env (world (cpp_part env args w))) ++
    events (rust_part env args
              (world (pip_steps env (world (cpp_part env args w))))).
Proof.
  intros H1 H2. unfold main. split.
  - rewrite (res_bind_Ok _ _ _ _ H1). now rewrite (res_bind_Ok _ _ _ _ H2).
  - rewrite (events_bind_Ok _ _ _ _ H1).
    now rewrite (events_bind_Ok _ _ _ _ H2).
Qed.

(** * Further properties of the script *)

(** ** The primitives in closed form *)

Lemma os_chdir_run p w :
  os_chdir p w =
  match fs w !! resolve (cwd w) p with
  | Some Dir =>
      Out (Ok tt) (MkWorld (clock w) (resolve (cwd w) p) (fs w) (dbs w))
          [EvChdir (resolve (cwd w) p)]
  | Some (File _) =>
      Out (Raise NotADirectoryError) w [EvChdir (resolve (cwd w) p)]
  | None => Out (Raise FileNotFoundError) w [EvChdir (resolve (cwd w) p)]
  end.
Proof.
  unfold os_chdir, bind, get, emit. cbn [res world events].
  destruct (fs w !! resolve (cwd w) p) as [[|?]|]; reflexivity.
Qed.

Lemma open_w_run p w :
  open_w p w =
  match fs w !! removelast (resolve (cwd w) p), fs w !! resolve (cwd w) p with
  | Some Dir, Some Dir =>
      Out (Raise IsADirectoryError) w [EvOpenW (resolve (cwd w) p)]
  | Some Dir, _ =>
      Out (Ok (resolve (cwd w) p))
          (MkWorld (clock w) (cwd w)
             (<[resolve (cwd w) p := File ""]> (fs w)) (dbs w))
          [EvOpenW (resolve (cwd w) p)]
  | Some (File _), _ =>
      Out (Raise NotADirectoryError) w [EvOpenW (resolve (cwd w) p)]
  | None, _ => Out (Raise FileNotFoundError) w [EvOpenW (resolve (cwd w) p)]
  end.
Proof.
  unfold open_w, bind, get, emit. cbn [res world events].
  destruct (fs w !! removelast (resolve (cwd w) p)) as [[|?]|];
    destruct (fs w !! resolve (cwd w) p) as [[|?]|]; reflexivity.
Qed.

Lemma memgraph_execute_run env host port stmt w :
  memgraph_execute env host port stmt w =
  if db_ok env (clock w) host port stmt
  then Out (Ok tt)
         (MkWorld (S (clock w)) (cwd w) (fs w)
            (<[(host, port) :=
                 apply_stmt stmt (db_content (dbs w) host port)]> (dbs w)))
         [EvExecute host port stmt true]
  else Out (Raise DatabaseError)
         (MkWorld (S (clock w)) (cwd w) (fs w) (dbs w))
         [EvExecute host port stmt false].
Proof.
  unfold memgraph_execute, bind, tick. cbn [res world events].
  destruct (db_ok env (clock w) host port stmt); reflexivity.
Qed.

Lemma read_dot_run env p w :
  read_dot env p w =
  Out match fs w !! resolve (cwd w) p with
      | Some (File text) =>
          match parse_dot env text with
          | Some g => Ok g
          | None => Raise DotParseError
          end
      | Some Dir => Raise IsADirectoryError
      | None => Raise FileNotFoundError
      end w [EvReadDot (resolve (cwd w) p)].
Proof.
  unfold read_dot, bind, get, emit. cbn [res world events].
  destruct (fs w !! resolve (cwd w) p) as [[|text]|]; try reflexivity.
  destruct (parse_dot env text); reflexivity.
Qed.

Lemma out_eta {A} (o : out A) : o = Out (res o) (world o) (events o).
Proof. now destruct o. Qed.

(** [dot_to_mg_graph] in closed form: the world is left as it is. *)
Lemma dot_to_mg_graph_run env p labels w :
  dot_to_mg_graph env p labels w =
  Out match fs w !! resolve (cwd w) p with
      | Some (File text) =>
          match parse_dot env text with
          | Some g =>
              match annotate_nodes labels (nodes g) with
              | Ok l => Ok (Graph l (edges g))
              | Raise e => Raise e
              end
          | None => Raise DotParseError
          end
      | Some Dir => Raise IsADirectoryError
      | None => Raise FileNotFoundError
      end w [EvReadDot (resolve (cwd w) p)].
Proof.
  unfold dot_to_mg_graph, bind. rewrite read_dot_run. cbn [res world events].
  destruct (fs w !! resolve (cwd w) p) as [[|text]|]; try reflexivity.
  destruct (parse_dot env text) as [g|]; [|reflexivity].
  destruct (annotate_nodes labels (nodes g)); reflexivity.
Qed.

(** ** The readiness checkers *)

(** [is_cargo_ready] in closed form. *)
Lemma is_cargo_ready_run env w :
  is_cargo_ready env w =
  match proc env (clock w) ["cargo"; "--version"] (cwd w) (fs w) with
  | SpawnError =>
      Out (Ok false) (MkWorld (S (clock w)) (cwd w) (fs w) (dbs w))
          [EvSpawn ["cargo"; "--version"] None;
           EvPrint "cargo is not available, please installed it."]
  | Exits c1 _ ws1 =>
      if c1 =? 0
      then
        match proc env (S (clock w)) ["cargo"; "install"; "--list"] (cwd w)
                (write_files ws1 (fs w)) with
        | SpawnError =>
            Out (Raise FileNotFoundError)
                (MkWorld (S (S (clock w))) (cwd w) (write_files ws1 (fs w))
                   (dbs w))
                [EvSpawn ["cargo"; "--version"] (Some c1);
                 EvSpawn ["cargo"; "install"; "--list"] None]
        | Exits c2 o2 ws2 =>
            let w2 := MkWorld (S (S (clock w))) (cwd w)
                        (write_files ws2 (write_files ws1 (fs w))) (dbs w) in
            if c2 =? 0
            then
              if py_in "cargo-deps" (str_of_bytes o2)
              then Out (Ok true) w2
                     [EvSpawn ["cargo"; "--version"] (Some c1);
                      EvSpawn ["cargo"; "install"; "--list"] (Some c2)]
              else Out (Ok false) w2
                     [EvSpawn ["cargo"; "--version"] (Some c1);
                      EvSpawn ["cargo"; "install"; "--list"] (Some c2);
                      EvPrint
                        "cargo-deps is not available, please installed it."]
            else Out (Raise (CalledProcessError
                               ["cargo"; "install"; "--list"] c2)) w2
                   [EvSpawn ["cargo"; "--version"] (Some c1);
                    EvSpawn ["cargo"; "install"; "--list"] (Some c2)]
        end
      else
        Out (Ok false)
            (MkWorld (S (clock w)) (cwd w) (write_files ws1 (fs w)) (dbs w))
            [EvSpawn ["cargo"; "--version"] (Some c1);
             EvPrint "cargo is not available, please installed it."]
  end.
Proof.
  unfold is_cargo_ready.
  set (probe := try_except _ _).
  set (rest := λ found : bool, if negb found then ret false else _).
  assert (E : probe w =
    match proc env (clock w) ["cargo"; "--version"] (cwd w) (fs w) with
    | SpawnError =>
        Out (Ok false) (MkWorld (S (clock w)) (cwd w) (fs w) (dbs w))
            [EvSpawn ["cargo"; "--version"] None;
             EvPrint "cargo is not available, please installed it."]
    | Exits c1 _ ws1 =>
        if c1 =? 0
        then Out (Ok true)
               (MkWorld (S (clock w)) (cwd w) (write_files ws1 (fs w)) (dbs w))
               [EvSpawn ["cargo"; "--version"] (Some c1)]
        else Out (Ok false)
               (MkWorld (S (clock w)) (cwd w) (write_files ws1 (fs w)) (dbs w))
               [EvSpawn ["cargo"; "--version"] (Some c1);
                EvPrint "cargo is not available, please installed it."]
    end).
  { unfold probe, try_except, bind. rewrite subprocess_run_run.
    destruct (proc env (clock w) ["cargo"; "--version"] (cwd w) (fs w))
      as [|c1 o1 ws1]; [reflexivity|].
    cbn [andb]. destruct (c1 =? 0); reflexivity. }
  assert (R : ∀ z, rest true z =
    match proc env (clock z) ["cargo"; "install"; "--list"] (cwd z) (fs z) with
    | SpawnError =>
        Out (Raise FileNotFoundError)
            (MkWorld (S (clock z)) (cwd z) (fs z) (dbs z))
            [EvSpawn ["cargo"; "install"; "--list"] None]
    | Exits c2 o2 ws2 =>
        let z2 := MkWorld (S (clock z)) (cwd z) (write_files ws2 (fs z))
                    (dbs z) in
        if c2 =? 0
        then
          if py_in "cargo-deps" (str_of_bytes o2)
          then Out (Ok true) z2
                 [EvSpawn ["cargo"; "install"; "--list"] (Some c2)]
          else Out (Ok false) z2
                 [EvSpawn ["cargo"; "install"; "--list"] (Some c2);
                  EvPrint "cargo-deps is not available, please installed it."]
        else Out (Raise (CalledProcessError
                           ["cargo"; "install"; "--list"] c2)) z2
               [EvSpawn ["cargo"; "install"; "--list"] (Some c2)]
    end).
  { intros z. unfold rest. cbn [negb]. unfold bind.
    rewrite subprocess_run_run.
    destruct (proc env (clock z) ["cargo"; "install"; "--list"] (cwd z)
                (fs z)) as [|c2 o2 ws2]; [reflexivity|].
    cbn [andb]. destruct (c2 =? 0) eqn:Ec; cbn [negb res world events];
      [|reflexivity].
    cbn [returncode stdout]. rewrite Ec. cbn [negb default].
    change (id o2) with o2.
    destruct (py_in "cargo-deps" (str_of_bytes o2)); reflexivity. }
  unfold bind. rewrite E. clear E.
  destruct (proc env (clock w) ["cargo"; "--version"] (cwd w) (fs w))
    as [|c1 o1 ws1]; [reflexivity|].
  destruct (c1 =? 0); [|reflexivity].
  cbn [res world events]. rewrite R. cbn [clock cwd fs dbs].
  destruct (proc env (S (clock w)) ["cargo"; "install"; "--list"] (cwd w)
              (write_files ws1 (fs w))) as [|c2 o2 ws2]; [reflexivity|].
  cbn zeta. destruct (c2 =? 0); [|reflexivity].
  destruct (py_in "cargo-deps" (str_of_bytes o2)); reflexivity.
Qed.

Lemma is_memgraph_ready_content env host port w h p :
  db_content (dbs (world (is_memgraph_ready env host port w))) h p =
  db_content (dbs w) h p.
Proof.
  rewrite is_memgraph_ready_run. cbn [world dbs].
  destruct (db_ok env (clock w) host port probe_stmt); [|reflexivity].
  rewrite db_content_insert.
  now destruct (decide ((host, port) = (h, p))) as [[= -> ->]|].
Qed.

(** X1.  The database probe never raises: it tries its one statement at
    the endpoint it is given and answers whether the statement got
    through.  It leaves the stored data of every endpoint, the files and
    the working directory as they were. *)
Theorem is_memgraph_ready_only_probes env host port w :
  res (is_memgraph_ready env host port w) =
    Ok (db_ok env (clock w) host port probe_stmt) ∧
  events (is_memgraph_ready env host port w) =
    [EvExecute host port probe_stmt
       (db_ok env (clock w) host port probe_stmt)] ∧
  (∀ h p, db_content (dbs (world (is_memgraph_ready env host port w))) h p =
          db_content (dbs w) h p) ∧
  fs (world (is_memgraph_ready env host port w)) = fs w ∧
  cwd (world (is_memgraph_ready env host port w)) = cwd w.
Proof.
  split; [|split; [|split; [|split]]].
  - now rewrite is_memgraph_ready_run.
  - now rewrite is_memgraph_ready_run.
  - intros h p. apply is_memgraph_ready_content.
  - now rewrite is_memgraph_ready_run.
  - now rewrite is_memgraph_ready_run.
Qed.

(** X2.  [is_cmake_ready] never raises and does not look at the exit
    status: it answers [False] exactly when [cmake] cannot be started, and
    [True] as soon as it can, whatever [cmake --version] exits with.  The
    database and the working directory are not touched. *)
Theorem is_cmake_ready_ignores_exit_status env w :
  (res (is_cmake_ready env w) = Ok false ↔
   proc env (clock w) ["cmake"; "--version"] (cwd w) (fs w) = SpawnError) ∧
  (res (is_cmake_ready env w) = Ok true ↔
   ∃ code output ws,
     proc env (clock w) ["cmake"; "--version"] (cwd w) (fs w)
       = Exits code output ws) ∧
  dbs (world (is_cmake_ready env w)) = dbs w ∧
  cwd (world (is_cmake_ready env w)) = cwd w.
Proof.
  rewrite is_cmake_ready_run.
  destruct (proc env (clock w) ["cmake"; "--version"] (cwd w) (fs w))
    as [|code output ws]; cbn [res world dbs cwd]; repeat split;
    try discriminate; eauto.
  intros [? [? [? ?]]]. discriminate.
Qed.

(** X3.  When [cargo] cannot be started, or [cargo --version] exits with a
    non-zero status, [is_cargo_ready] answers [False] after printing that
    cargo is not available, and the plugin listing is not run at all. *)
Theorem is_cargo_ready_without_cargo env w :
  (proc env (clock w) ["cargo"; "--version"] (cwd w) (fs w) = SpawnError ∨
   ∃ code output ws,
     proc env (clock w) ["cargo"; "--version"] (cwd w) (fs w)
       = Exits code output ws ∧ code ≠ 0) →
  res (is_cargo_ready env w) = Ok false ∧
  ∃ rc, events (is_cargo_ready env w) =
          [EvSpawn ["cargo"; "--version"] rc;
           EvPrint "cargo is not available, please installed it."].
Proof.
  rewrite is_cargo_ready_run. intros [H|[code [output [ws [H Hc]]]]]; rewrite H.
  - split; [reflexivity|]. now eexists.
  - apply Z.eqb_neq in Hc. rewrite Hc. split; [reflexivity|]. now eexists.
Qed.

Lemma is_cargo_ready_without_cargo_witness :
  res (is_cargo_ready env_default_up home_world) = Ok false ∧
  ∃ rc, events (is_cargo_ready env_default_up home_world) =
          [EvSpawn ["cargo"; "--version"] rc;
           EvPrint "cargo is not available, please installed it."].
Proof.
  apply (is_cargo_ready_without_cargo env_default_up home_world).
  left. reflexivity.
Defined.

(** X4.  When [cargo --version] and [cargo install --list] both exit with
    status 0 and the text [cargo-deps] occurs in what the listing printed,
    [is_cargo_ready] answers [True] and prints nothing. *)
Theorem is_cargo_ready_finds_plugin env w o1 ws1 o2 ws2 :
  proc env (clock w) ["cargo"; "--version"] (cwd w) (fs w) = Exits 0 o1 ws1 →
  proc env (S (clock w)) ["cargo"; "install"; "--list"] (cwd w)
    (write_files ws1 (fs w)) = Exits 0 o2 ws2 →
  py_in "cargo-deps" o2 = true →
  res (is_cargo_ready env w) = Ok true ∧
  events (is_cargo_ready env w) =
    [EvSpawn ["cargo"; "--version"] (Some 0);
     EvSpawn ["cargo"; "install"; "--list"] (Some 0)].
Proof.
  intros H1 H2 Hin. rewrite is_cargo_ready_run, H1. cbn [Z.eqb].
  rewrite H2. cbn [Z.eqb]. cbn zeta.
  now rewrite (plugin_survives_printing _ Hin).
Qed.

Lemma is_cargo_ready_finds_plugin_witness :
  res (is_cargo_ready env_healthy home_world) = Ok true ∧
  events (is_cargo_ready env_healthy home_world) =
    [EvSpawn ["cargo"; "--version"] (Some 0);
     EvSpawn ["cargo"; "install"; "--list"] (Some 0)].
Proof.
  apply (is_cargo_ready_finds_plugin env_healthy home_world
           "cargo 1.75.0" [] "cargo-deps v1.5.1:" []);
    reflexivity.
Defined.

(** X5.  The message of the [returncode] test of [is_cargo_ready] is never
    printed: the listing is run with [check=True], so a status other than
    0 has already raised when the test is reached. *)
Theorem is_cargo_ready_never_reports_failed_check env w :
  EvPrint "Check of the cargo-deps failed, check installation of cargo."
    ∉ events (is_cargo_ready env w).
Proof.
  rewrite is_cargo_ready_run.
  destruct (proc env (clock w) ["cargo"; "--version"] (cwd w) (fs w))
    as [|c1 o1 ws1].
  - cbn [events]. intros H.
    repeat (apply elem_of_cons in H as [H|H]; [discriminate H|]).
    now apply elem_of_nil in H.
  - destruct (c1 =? 0);
      [destruct (proc env (S (clock w)) ["cargo"; "install"; "--list"]
                   (cwd w) (write_files ws1 (fs w))) as [|c2 o2 ws2];
       [|cbn zeta; destruct (c2 =? 0);
         [destruct (py_in "cargo-deps" (str_of_bytes o2))|]]|];
      cbn [events]; intros H;
      repeat (apply elem_of_cons in H as [H|H]; [discriminate H|]);
      now apply elem_of_nil in H.
Qed.

(** X6.  [is_cargo_ready] raises exactly when [cargo --version] exits with
    status 0 and the listing that follows cannot be started or exits with
    a status other than 0. *)
Theorem is_cargo_ready_raises_iff env w :
  (∃ e, res (is_cargo_ready env w) = Raise e) ↔
  ∃ o1 ws1,
    proc env (clock w) ["cargo"; "--version"] (cwd w) (fs w)
      = Exits 0 o1 ws1 ∧
    (proc env (S (clock w)) ["cargo"; "install"; "--list"] (cwd w)
       (write_files ws1 (fs w)) = SpawnError ∨
     ∃ code o2 ws2,
       proc env (S (clock w)) ["cargo"; "install"; "--list"] (cwd w)
         (write_files ws1 (fs w)) = Exits code o2 ws2 ∧ code ≠ 0).
Proof.
  rewrite is_cargo_ready_run.
  destruct (proc env (clock w) ["cargo"; "--version"] (cwd w) (fs w))
    as [|c1 o1 ws1].
  { split; [intros [e H]; discriminate|intros [? [? [H _]]]; discriminate]. }
  destruct (c1 =? 0) eqn:E1.
  2:{ split; [intros [e H]; discriminate|].
      intros [? [? [[= -> _ _] _]]]. discriminate. }
  apply Z.eqb_eq in E1 as ->.
  destruct (proc env (S (clock w)) ["cargo"; "install"; "--list"] (cwd w)
              (write_files ws1 (fs w))) as [|c2 o2 ws2] eqn:E2.
  { split; [|now eexists]. intros _. exists o1, ws1. split; [reflexivity|].
    left. exact E2. }
  cbn zeta. destruct (c2 =? 0) eqn:Ec.
  - apply Z.eqb_eq in Ec as ->. split.
    + destruct (py_in "cargo-deps" (str_of_bytes o2)); intros [e H];
        discriminate.
    + intros [o1' [ws1' [[= <- <-] [H|[code [o2' [ws2' [H Hc]]]]]]]].
      * rewrite E2 in H. discriminate.
      * rewrite E2 in H. injection H as <- <- <-. now destruct Hc.
  - split; [|now eexists]. intros _. exists o1, ws1. split; [reflexivity|].
    right. exists c2, o2, ws2. split; [exact E2|]. now apply Z.eqb_neq.
Qed.

(** ** Loading a graph *)

Lemma world_eta w : MkWorld (clock w) (cwd w) (fs w) (dbs w) = w.
Proof. now destruct w. Qed.

(** A run of statements that all get through, followed by whatever comes
    next. *)
Lemma run_statements env host port pre rest : ∀ w,
  (∀ i q, pre !! i = Some q →
          db_ok env (clock w + i) host port q = true) →
  for_each (pre ++ rest) (memgraph_execute env host port) w =
  Out (res (for_each rest (memgraph_execute env host port)
              (MkWorld (clock w + length pre) (cwd w) (fs w)
                 (replay (map (λ q, EvExecute host port q true) pre)
                    (dbs w)))))
      (world (for_each rest (memgraph_execute env host port)
                (MkWorld (clock w + length pre) (cwd w) (fs w)
                   (replay (map (λ q, EvExecute host port q true) pre)
                      (dbs w)))))
      (map (λ q, EvExecute host port q true) pre ++
       events (for_each rest (memgraph_execute env host port)
                 (MkWorld (clock w + length pre) (cwd w) (fs w)
                    (replay (map (λ q, EvExecute host port q true) pre)
                       (dbs w))))).
Proof.
  induction pre as [|q pre IH]; intros w H.
  - cbn [app length map]. rewrite Nat.add_0_r. unfold replay. cbn [foldl].
    rewrite world_eta. apply out_eta.
  - cbn [app for_each]. unfold bind. rewrite memgraph_execute_run.
    assert (Hq : db_ok env (clock w) host port q = true).
    { rewrite <- (Nat.add_0_r (clock w)). now apply (H 0%nat q). }
    rewrite Hq. cbn [res world events].
    rewrite IH.
    2:{ intros i q' Hi. cbn [clock].
        replace (S (clock w) + i)%nat with (clock w + S i)%nat by lia.
        now apply (H (S i) q'). }
    cbn [clock cwd fs dbs length map].
    replace (S (clock w) + length pre)%nat
      with (clock w + S (length pre))%nat by lia.
    reflexivity.
Qed.

Lemma run_all_statements env host port qs w :
  (∀ i q, qs !! i = Some q → db_ok env (clock w + i) host port q = true) →
  for_each qs (memgraph_execute env host port) w =
  Out (Ok tt)
      (MkWorld (clock w + length qs) (cwd w) (fs w)
         (replay (map (λ q, EvExecute host port q true) qs) (dbs w)))
      (map (λ q, EvExecute host port q true) qs).
Proof.
  intros H. rewrite <- (app_nil_r qs) at 1.
  rewrite run_statements by exact H.
  cbn [for_each ret res world events]. now rewrite app_nil_r.
Qed.

Lemma replay_statements host port qs : ∀ d,
  db_content (replay (map (λ q, EvExecute host port q true) qs) d) host port
  = foldl (λ content q, apply_stmt q content) (db_content d host port) qs.
Proof.
  induction qs as [|q qs IH]; intros d; [reflexivity|].
  cbn [map foldl]. unfold replay in *. cbn [foldl db_step].
  rewrite IH, db_content_insert. now rewrite decide_True.
Qed.

(** [dot_to_memgraph] once the probe got through and the graph is there:
    what is left is the loop over the statements. *)
Lemma dot_to_memgraph_ready_run env p labels host port w text g l :
  db_ok env (clock w) "127.0.0.1" 7687 probe_stmt = true →
  fs w !! resolve (cwd w) p = Some (File text) →
  parse_dot env text = Some g →
  annotate_nodes labels (nodes g) = Ok l →
  dot_to_memgraph env p labels host port w =
  Out (res (for_each (nx_to_cypher env (Graph l (edges g)))
              (memgraph_execute env host port)
              (world (is_memgraph_ready env "127.0.0.1" 7687 w))))
      (world (for_each (nx_to_cypher env (Graph l (edges g)))
                (memgraph_execute env host port)
                (world (is_memgraph_ready env "127.0.0.1" 7687 w))))
      ([EvCall (Call_dot_to_memgraph p labels host port);
        EvExecute "127.0.0.1" 7687 probe_stmt true;
        EvReadDot (resolve (cwd w) p)] ++
       events (for_each (nx_to_cypher env (Graph l (edges g)))
                 (memgraph_execute env host port)
                 (world (is_memgraph_ready env "127.0.0.1" 7687 w)))).
Proof.
  intros Hp Hf Hg Hl. unfold dot_to_memgraph, bind.
  cbn [emit res world events]. rewrite is_memgraph_ready_run.
  cbn [res world events]. rewrite Hp. cbn [negb res world events].
  rewrite dot_to_mg_graph_run. cbn [fs cwd]. rewrite Hf, Hg, Hl.
  cbn [res world events app]. reflexivity.
Qed.

(** X7.  When the probe gets through, the DOT file parses, every node has
    a label and every statement gets through, [dot_to_memgraph] executes
    the statements that [nx_to_cypher] yields for the annotated graph, all
    of them, in their order and at the host and port it was given, and the
    endpoint then holds what these statements make of what it held. *)
Theorem dot_to_memgraph_loads_in_order env p labels host port w text g l :
  db_ok env (clock w) "127.0.0.1" 7687 probe_stmt = true →
  fs w !! resolve (cwd w) p = Some (File text) →
  parse_dot env text = Some g →
  annotate_nodes labels (nodes g) = Ok l →
  (∀ i q, nx_to_cypher env (Graph l (edges g)) !! i = Some q →
          db_ok env (S (clock w) + i) host port q = true) →
  res (dot_to_memgraph env p labels host port w) = Ok tt ∧
  events (dot_to_memgraph env p labels host port w) =
    [EvCall (Call_dot_to_memgraph p labels host port);
     EvExecute "127.0.0.1" 7687 probe_stmt true;
     EvReadDot (resolve (cwd w) p)] ++
    map (λ q, EvExecute host port q true)
        (nx_to_cypher env (Graph l (edges g))) ∧
  db_content (dbs (world (dot_to_memgraph env p labels host port w)))
    host port =
    foldl (λ content q, apply_stmt q content) (db_content (dbs w) host port)
          (nx_to_cypher env (Graph l (edges g))).
Proof.
  intros Hp Hf Hg Hl Hq.
  rewrite (dot_to_memgraph_ready_run env p labels host port w text g l)
    by assumption.
  rewrite run_all_statements.
  2:{ rewrite is_memgraph_ready_run. cbn [world clock]. exact Hq. }
  cbn [res world events dbs]. repeat split.
  rewrite replay_statements. f_equal. apply is_memgraph_ready_content.
Qed.

Lemma dot_to_memgraph_loads_in_order_witness :
  res (dot_to_memgraph env_healthy pydeps_path ["Python"] "10.0.0.5" 7688
         loaded_world) = Ok tt ∧
  events (dot_to_memgraph env_healthy pydeps_path ["Python"] "10.0.0.5" 7688
            loaded_world) =
    [EvCall (Call_dot_to_memgraph pydeps_path ["Python"] "10.0.0.5" 7688);
     EvExecute "127.0.0.1" 7687 probe_stmt true;
     EvReadDot (resolve (cwd loaded_world) pydeps_path)] ++
    map (λ q, EvExecute "10.0.0.5" 7688 q true)
        (nx_to_cypher env_healthy
           (Graph sample_annotated (edges sample_graph))) ∧
  db_content
    (dbs (world (dot_to_memgraph env_healthy pydeps_path ["Python"]
                   "10.0.0.5" 7688 loaded_world))) "10.0.0.5" 7688 =
    foldl (λ content q, apply_stmt q content)
          (db_content (dbs loaded_world) "10.0.0.5" 7688)
          (nx_to_cypher env_healthy
             (Graph sample_annotated (edges sample_graph))).
Proof.
  apply (dot_to_memgraph_loads_in_order env_healthy pydeps_path ["Python"]
           "10.0.0.5" 7688 loaded_world "digraph { a -> b }" sample_graph
           sample_annotated).
  - reflexivity.
  - reflexivity.
  - reflexivity.
  - vm_compute. reflexivity.
  - intros i q _. reflexivity.
Defined.

(** X8.  A statement that does not get through ends the load with the
    exception it raises: the statements before it were executed and stay
    stored, the ones after it are never tried, and nothing is rolled
    back. *)
Theorem dot_to_memgraph_partial_load
    env p labels host port w text g l pre q post :
  db_ok env (clock w) "127.0.0.1" 7687 probe_stmt = true →
  fs w !! resolve (cwd w) p = Some (File text) →
  parse_dot env text = Some g →
  annotate_nodes labels (nodes g) = Ok l →
  nx_to_cypher env (Graph l (edges g)) = pre ++ q :: post →
  (∀ i q', pre !! i = Some q' →
           db_ok env (S (clock w) + i) host port q' = true) →
  db_ok env (S (clock w) + length pre) host port q = false →
  res (dot_to_memgraph env p labels host port w) = Raise DatabaseError ∧
  events (dot_to_memgraph env p labels host port w) =
    [EvCall (Call_dot_to_memgraph p labels host port);
     EvExecute "127.0.0.1" 7687 probe_stmt true;
     EvReadDot (resolve (cwd w) p)] ++
    map (λ q', EvExecute host port q' true) pre ++
    [EvExecute host port q false] ∧
  db_content (dbs (world (dot_to_memgraph env p labels host port w)))
    host port =
    foldl (λ content q', apply_stmt q' content)
          (db_content (dbs w) host port) pre.
Proof.
  intros Hp Hf Hg Hl Hqs Hpre Hq.
  rewrite (dot_to_memgraph_ready_run env p labels host port w text g l)
    by assumption.
  rewrite Hqs, run_statements.
  2:{ rewrite is_memgraph_ready_run. cbn [world clock]. exact Hpre. }
  rewrite is_memgraph_ready_run. cbn [world clock cwd fs dbs].
  cbn [for_each]. unfold bind. rewrite memgraph_execute_run.
  cbn [clock]. rewrite Hq, Hp. cbn [res world events dbs].
  repeat split. rewrite replay_statements. f_equal.
  rewrite db_content_insert.
  now destruct (decide (("127.0.0.1", 7687) = (host, port))) as [[= <- <-]|].
Qed.

Lemma dot_to_memgraph_partial_load_witness :
  res (dot_to_memgraph env_db_drops pydeps_path ["Python"] "127.0.0.1" 7687
         loaded_world) = Raise DatabaseError ∧
  events (dot_to_memgraph env_db_drops pydeps_path ["Python"] "127.0.0.1"
            7687 loaded_world) =
    [EvCall (Call_dot_to_memgraph pydeps_path ["Python"] "127.0.0.1" 7687);
     EvExecute "127.0.0.1" 7687 probe_stmt true;
     EvReadDot (resolve (cwd loaded_world) pydeps_path)] ++
    map (λ q', EvExecute "127.0.0.1" 7687 q' true) ["CREATE (:a);"] ++
    [EvExecute "127.0.0.1" 7687 "CREATE (:b);" false] ∧
  db_content
    (dbs (world (dot_to_memgraph env_db_drops pydeps_path ["Python"]
                   "127.0.0.1" 7687 loaded_world))) "127.0.0.1" 7687 =
    foldl (λ content q', apply_stmt q' content)
          (db_content (dbs loaded_world) "127.0.0.1" 7687) ["CREATE (:a);"].
Proof.
  apply (dot_to_memgraph_partial_load env_db_drops pydeps_path ["Python"]
           "127.0.0.1" 7687 loaded_world "digraph { a -> b }" sample_graph
           sample_annotated ["CREATE (:a);"] "CREATE (:b);" []).
  - reflexivity.
  - reflexivity.
  - reflexivity.
  - vm_compute. reflexivity.
  - vm_compute. reflexivity.
  - intros [|i] q' H; [reflexivity|]. destruct i; discriminate H.
  - reflexivity.
Defined.

(** ** Annotating the nodes, continued *)

Lemma annotate_Ok labels data data' :
  annotate labels data = Ok data' →
  ∃ s, data !! "label" = Some (PStr s) ∧
       data' = <["name" := PStr (py_strip quote_chars s)]>
                 (<["labels" := PList labels]> data).
Proof.
  unfold annotate. rewrite lookup_insert_ne by discriminate.
  destruct (data !! "label") as [[s|?]|]; try discriminate.
  intros [= <-]. now exists s.
Qed.

Lemma annotate_nodes_Ok labels l : ∀ l',
  annotate_nodes labels l = Ok l' →
  Forall2 (λ n n', n'.1 = n.1 ∧ annotate labels n.2 = Ok n'.2) l l'.
Proof.
  induction l as [|[id data] l IH]; intros l'; simpl.
  - intros [= <-]. constructor.
  - destruct (annotate labels data) as [data'|] eqn:E; [|discriminate].
    destruct (annotate_nodes labels l) as [r|]; [|discriminate].
    intros [= <-]. constructor; [now split|now apply IH].
Qed.

Lemma annotate_nodes_missing_label labels l :
  (∀ n v, n ∈ l → n.2 !! "label" = Some v → ∃ s, v = PStr s) →
  (∃ n, n ∈ l ∧ n.2 !! "label" = None) →
  annotate_nodes labels l = Raise (KeyError "label").
Proof.
  induction l as [|[id data] l IH]; intros Hs [n [Hn Hnone]].
  - now apply elem_of_nil in Hn.
  - simpl. destruct (data !! "label") as [v|] eqn:E.
    + destruct (Hs (id, data) v) as [s ->]; [left|exact E|].
      rewrite (annotate_labelled _ _ _ E).
      rewrite IH; [reflexivity| |].
      * intros n' v' Hn'. apply Hs. now right.
      * apply elem_of_cons in Hn as [->|Hn]; [|eauto].
        simpl in Hnone. congruence.
    + now rewrite (annotate_unlabelled _ _ E).
Qed.

(** X9.  For a DOT file that can be read and parsed, [dot_to_mg_graph]
    returns a graph exactly when every node has a label that is a
    string; otherwise it raises. *)
Theorem dot_to_mg_graph_ok_iff_labelled env p labels w text g :
  fs w !! resolve (cwd w) p = Some (File text) →
  parse_dot env text = Some g →
  ((∃ g', res (dot_to_mg_graph env p labels w) = Ok g') ↔
   ∀ n, n ∈ nodes g → ∃ s, n.2 !! "label" = Some (PStr s)).
Proof.
  intros Hf Hg. rewrite dot_to_mg_graph_run, Hf, Hg. cbn [res]. split.
  - intros [g' H] n Hn.
    destruct (annotate_nodes labels (nodes g)) as [l|] eqn:E; [|discriminate].
    apply annotate_nodes_Ok in E.
    apply list_elem_of_lookup in Hn as [i Hi].
    destruct (Forall2_lookup_l _ _ _ _ _ E Hi) as [n' [_ [_ Hn']]].
    apply annotate_Ok in Hn' as [s [Hs _]]. eauto.
  - intros H. destruct (annotate_nodes_labelled labels (nodes g) H) as [l [E _]].
    rewrite E. eauto.
Qed.

Lemma dot_to_mg_graph_ok_iff_labelled_witness :
  (∃ g', res (dot_to_mg_graph env_half_labelled pydeps_path ["Python"]
                loaded_world) = Ok g') ↔
  ∀ n, n ∈ nodes half_labelled_graph → ∃ s, n.2 !! "label" = Some (PStr s).
Proof.
  apply (dot_to_mg_graph_ok_iff_labelled env_half_labelled pydeps_path
           ["Python"] loaded_world "digraph { a -> b }" half_labelled_graph);
    reflexivity.
Defined.

(** X10.  When the labels that are there are strings and some node has
    none, the exception of [dot_to_mg_graph] is [KeyError] for the key
    [label], also when the nodes before that one were fine. *)
Theorem dot_to_mg_graph_missing_label env p labels w text g :
  fs w !! resolve (cwd w) p = Some (File text) →
  parse_dot env text = Some g →
  (∀ n v, n ∈ nodes g → n.2 !! "label" = Some v → ∃ s, v = PStr s) →
  (∃ n, n ∈ nodes g ∧ n.2 !! "label" = None) →
  res (dot_to_mg_graph env p labels w) = Raise (KeyError "label").
Proof.
  intros Hf Hg Hs Hn. rewrite dot_to_mg_graph_run, Hf, Hg. cbn [res].
  now rewrite annotate_nodes_missing_label.
Qed.

Lemma dot_to_mg_graph_missing_label_witness :
  res (dot_to_mg_graph env_half_labelled pydeps_path ["Python"] loaded_world)
    = Raise (KeyError "label").
Proof.
  apply (dot_to_mg_graph_missing_label env_half_labelled pydeps_path
           ["Python"] loaded_world "digraph { a -> b }" half_labelled_graph).
  - reflexivity.
  - reflexivity.
  - intros n v Hn Hv. unfold half_labelled_graph in Hn. cbn [nodes] in Hn.
    elems Hn; cbn [snd] in Hv.
    + rewrite lookup_singleton_eq in Hv. injection Hv as <-. now eexists.
    + rewrite lookup_empty in Hv. discriminate.
  - exists ("b", ∅). split; [right; left|reflexivity].
Defined.

(** X11.  A graph that [dot_to_mg_graph] returns has the edges of the
    parsed one and the same nodes in the same order, and on every node
    every attribute other than [labels] and [name] is what it was; the
    call changes nothing in the world. *)
Theorem dot_to_mg_graph_keeps_other_attributes env p labels w text g g' :
  fs w !! resolve (cwd w) p = Some (File text) →
  parse_dot env text = Some g →
  res (dot_to_mg_graph env p labels w) = Ok g' →
  edges g' = edges g ∧
  Forall2 (λ n n', n'.1 = n.1 ∧
                   ∀ k, k ≠ "labels" → k ≠ "name" → n'.2 !! k = n.2 !! k)
          (nodes g) (nodes g') ∧
  world (dot_to_mg_graph env p labels w) = w.
Proof.
  intros Hf Hg. rewrite dot_to_mg_graph_run, Hf, Hg. cbn [res world].
  destruct (annotate_nodes labels (nodes g)) as [l|] eqn:E; [|discriminate].
  intros [= <-]. cbn [edges nodes]. repeat split.
  apply annotate_nodes_Ok in E.
  eapply Forall2_impl; [exact E|].
  intros n n' [Hid Ha]. split; [exact Hid|]. intros k Hk1 Hk2.
  apply annotate_Ok in Ha as [s [_ ->]].
  now rewrite !lookup_insert_ne by congruence.
Qed.

Lemma dot_to_mg_graph_keeps_other_attributes_witness :
  edges (Graph sample_annotated (edges sample_graph)) = edges sample_graph ∧
  Forall2 (λ n n', n'.1 = n.1 ∧
                   ∀ k, k ≠ "labels" → k ≠ "name" → n'.2 !! k = n.2 !! k)
          (nodes sample_graph)
          (nodes (Graph sample_annotated (edges sample_graph))) ∧
  world (dot_to_mg_graph env_healthy pydeps_path ["Python"] loaded_world)
    = loaded_world.
Proof.
  apply (dot_to_mg_graph_keeps_other_attributes env_healthy pydeps_path
           ["Python"] loaded_world "digraph { a -> b }" sample_graph
           (Graph sample_annotated (edges sample_graph))).
  - reflexivity.
  - reflexivity.
  - vm_compute. reflexivity.
Defined.

(** ** Labels without quotes *)

Lemma lstrip_unquoted chars s :
  (∀ c r, s = String c r → mem_char c chars = false) → lstrip chars s = s.
Proof.
  destruct s as [|c r]; [reflexivity|]. intros H. simpl.
  now rewrite (H c r eq_refl).
Qed.

Lemma rstrip_unquoted chars s :
  (∀ r c, s = r +:+ String c EmptyString → mem_char c chars = false) →
  rstrip chars s = s.
Proof.
  induction s as [|a s IH]; intros H; [reflexivity|]. simpl.
  rewrite IH.
  - destruct s as [|b s]; [|reflexivity].
    now rewrite (H EmptyString a eq_refl).
  - intros r c ->. apply (H (String a r) c). reflexivity.
Qed.



(** ** The generators and the renderer *)

(** What the two generators that redirect the output of their tool have in
    common, when the directory is there and the file can be opened. *)
Lemma redirected_tool_run env argv wd output_file w :
  fs w !! resolve (cwd w) wd = Some Dir →
  fs w !! removelast (resolve (resolve (cwd w) wd) output_file) = Some Dir →
  fs w !! resolve (resolve (cwd w) wd) output_file ≠ Some Dir →
  (os_chdir wd ;;
   f <- open_w output_file ;;
   subprocess_run env argv false (ToFile f) ;;
   ret tt) w =
  match proc env (clock w) argv (resolve (cwd w) wd)
          (<[resolve (resolve (cwd w) wd) output_file := File ""]> (fs w)) with
  | SpawnError =>
      Out (Raise FileNotFoundError)
          (MkWorld (S (clock w)) (resolve (cwd w) wd)
             (<[resolve (resolve (cwd w) wd) output_file := File ""]> (fs w))
             (dbs w))
          [EvChdir (resolve (cwd w) wd);
           EvOpenW (resolve (resolve (cwd w) wd) output_file);
           EvSpawn argv None]
  | Exits code output ws =>
      Out (Ok tt)
          (MkWorld (S (clock w)) (resolve (cwd w) wd)
             (<[resolve (resolve (cwd w) wd) output_file := File output]>
                (write_files ws
                   (<[resolve (resolve (cwd w) wd) output_file := File ""]>
                      (fs w))))
             (dbs w))
          [EvChdir (resolve (cwd w) wd);
           EvOpenW (resolve (resolve (cwd w) wd) output_file);
           EvSpawn argv (Some code)]
  end.
Proof.
  intros Hd Hp Hk. unfold bind.
  rewrite os_chdir_run, Hd. cbn [res world events].
  rewrite open_w_run. cbn [cwd fs clock dbs]. rewrite Hp.
  assert (E : ∀ (X : Type) (a b : X),
            match fs w !! resolve (resolve (cwd w) wd) output_file with
            | Some Dir => a
            | _ => b
            end = b).
  { intros X a b.
    destruct (fs w !! resolve (resolve (cwd w) wd) output_file) as [[|?]|];
      [now destruct Hk|reflexivity|reflexivity]. }
  rewrite E. cbn [res world events].
  rewrite subprocess_run_run. cbn [cwd fs clock dbs andb].
  destruct (proc env (clock w) argv (resolve (cwd w) wd) _); reflexivity.
Qed.

(** X13.  [generate_pip_dot] opens its output file before it runs
    [pipdeptree]: when the tool cannot be started the call raises and
    leaves an empty file behind, and when it runs the file holds what the
    tool printed, whatever the exit status.  Either way the working
    directory is now the one given. *)
Theorem generate_pip_dot_file env wd output_file w :
  fs w !! resolve (cwd w) wd = Some Dir →
  fs w !! removelast (resolve (resolve (cwd w) wd) output_file) = Some Dir →
  fs w !! resolve (resolve (cwd w) wd) output_file ≠ Some Dir →
  cwd (world (generate_pip_dot env wd output_file w)) = resolve (cwd w) wd ∧
  match proc env (clock w) ["pipdeptree"; "--graph-output"; "dot"]
          (resolve (cwd w) wd)
          (<[resolve (resolve (cwd w) wd) output_file := File ""]> (fs w)) with
  | SpawnError =>
      res (generate_pip_dot env wd output_file w) = Raise FileNotFoundError ∧
      fs (world (generate_pip_dot env wd output_file w))
        !! resolve (resolve (cwd w) wd) output_file = Some (File "")
  | Exits code output ws =>
      res (generate_pip_dot env wd output_file w) = Ok tt ∧
      fs (world (generate_pip_dot env wd output_file w))
        !! resolve (resolve (cwd w) wd) output_file = Some (File output)
  end.
Proof.
  intros Hd Hp Hk. unfold generate_pip_dot. rewrite bind_emit.
  rewrite (redirected_tool_run env _ wd output_file w Hd Hp Hk).
  destruct (proc env (clock w) _ (resolve (cwd w) wd) _);
    cbn [res world cwd fs]; repeat split; apply lookup_insert_eq.
Qed.

Lemma generate_pip_dot_file_witness :
  cwd (world (generate_pip_dot env_default_up (Path true ["opt"; "depsy"])
                pydeps_path loaded_world)) = ["opt"; "depsy"] ∧
  res (generate_pip_dot env_default_up (Path true ["opt"; "depsy"])
         pydeps_path loaded_world) = Raise FileNotFoundError ∧
  fs (world (generate_pip_dot env_default_up (Path true ["opt"; "depsy"])
               pydeps_path loaded_world))
    !! ["opt"; "depsy"; "pydeps.dot"] = Some (File "").
Proof.
  apply (generate_pip_dot_file env_default_up (Path true ["opt"; "depsy"])
           pydeps_path loaded_world).
  - reflexivity.
  - reflexivity.
  - vm_compute. discriminate.
Defined.

(** X14.  [generate_cargo_dot] does the same with [cargo deps]: an empty
    DOT file is left when cargo cannot be started, and otherwise the file
    holds what [cargo deps] printed, whatever the exit status. *)
Theorem generate_cargo_dot_file env wd output_file w :
  fs w !! resolve (cwd w) wd = Some Dir →
  fs w !! removelast (resolve (resolve (cwd w) wd) output_file) = Some Dir →
  fs w !! resolve (resolve (cwd w) wd) output_file ≠ Some Dir →
  cwd (world (generate_cargo_dot env wd output_file w)) = resolve (cwd w) wd ∧
  match proc env (clock w) ["cargo"; "deps"] (resolve (cwd w) wd)
          (<[resolve (resolve (cwd w) wd) output_file := File ""]> (fs w)) with
  | SpawnError =>
      res (generate_cargo_dot env wd output_file w)
        = Raise FileNotFoundError ∧
      fs (world (generate_cargo_dot env wd output_file w))
        !! resolve (resolve (cwd w) wd) output_file = Some (File "")
  | Exits code output ws =>
      res (generate_cargo_dot env wd output_file w) = Ok tt ∧
      fs (world (generate_cargo_dot env wd output_file w))
        !! resolve (resolve (cwd w) wd) output_file = Some (File output)
  end.
Proof.
  intros Hd Hp Hk. unfold generate_cargo_dot. rewrite bind_emit.
  rewrite (redirected_tool_run env _ wd output_file w Hd Hp Hk).
  destruct (proc env (clock w) _ (resolve (cwd w) wd) _);
    cbn [res world cwd fs]; repeat split; apply lookup_insert_eq.
Qed.

Lemma generate_cargo_dot_file_witness :
  cwd (world (generate_cargo_dot env_cargo_deps_empty
                (Path true ["srv"; "rust"; "a"])
                (Path true ["opt"; "depsy"; "rsdeps_a.dot"]) rust_world))
    = ["srv"; "rust"; "a"] ∧
  res (generate_cargo_dot env_cargo_deps_empty
         (Path true ["srv"; "rust"; "a"])
         (Path true ["opt"; "depsy"; "rsdeps_a.dot"]) rust_world) = Ok tt ∧
  fs (world (generate_cargo_dot env_cargo_deps_empty
               (Path true ["srv"; "rust"; "a"])
               (Path true ["opt"; "depsy"; "rsdeps_a.dot"]) rust_world))
    !! ["opt"; "depsy"; "rsdeps_a.dot"] = Some (File "").
Proof.
  apply (generate_cargo_dot_file env_cargo_deps_empty
           (Path true ["srv"; "rust"; "a"])
           (Path true ["opt"; "depsy"; "rsdeps_a.dot"]) rust_world).
  - reflexivity.
  - reflexivity.
  - vm_compute. discriminate.
Defined.

(** X15.  [generate_cmake_dot] first changes to the build directory: when
    that is not a directory the call raises and cmake is not started;
    when it is, the working directory stays changed, and the call returns
    normally exactly when cmake can be started, whatever it exits with. *)
Theorem generate_cmake_dot_outcome env wd output_file w :
  match fs w !! resolve (cwd w) wd with
  | Some Dir =>
      cwd (world (generate_cmake_dot env wd output_file w))
        = resolve (cwd w) wd ∧
      (res (generate_cmake_dot env wd output_file w) = Ok tt ↔
       proc env (clock w)
         ["cmake"; "--graphviz=" +:+ path_str output_file; ".."]
         (resolve (cwd w) wd) (fs w) ≠ SpawnError) ∧
      ∃ rc, events (generate_cmake_dot env wd output_file w) =
              [EvCall (Call_generate_cmake_dot wd output_file);
               EvChdir (resolve (cwd w) wd);
               EvSpawn ["cmake"; "--graphviz=" +:+ path_str output_file; ".."]
                 rc]
  | _ =>
      (∃ e, res (generate_cmake_dot env wd output_file w) = Raise e) ∧
      events (generate_cmake_dot env wd output_file w) =
        [EvCall (Call_generate_cmake_dot wd output_file);
         EvChdir (resolve (cwd w) wd)] ∧
      world (generate_cmake_dot env wd output_file w) = w
  end.
Proof.
  unfold generate_cmake_dot. rewrite bind_emit. unfold bind.
  rewrite os_chdir_run.
  destruct (fs w !! resolve (cwd w) wd) as [[|text]|];
    cbn [res world events app]; [|eauto|eauto].
  rewrite subprocess_run_run. cbn [cwd fs clock dbs andb].
  destruct (proc env (clock w) _ (resolve (cwd w) wd) (fs w));
    cbn [res world events app cwd]; repeat split; try discriminate; eauto.
  intros H. now destruct H.
Qed.

(** X16.  [dot_to_png] runs [dot -Tpng -o] with the output path and the
    input path and does not look at the exit status: it returns normally
    exactly when [dot] can be started and raises [FileNotFoundError]
    otherwise; the working directory and the database are not touched. *)
Theorem dot_to_png_ignores_status env input_file output_file w :
  (res (dot_to_png env input_file output_file w) = Ok tt ↔
   proc env (clock w)
     ["dot"; "-Tpng"; "-o"; path_str output_file; path_str input_file]
     (cwd w) (fs w) ≠ SpawnError) ∧
  (res (dot_to_png env input_file output_file w) = Raise FileNotFoundError ↔
   proc env (clock w)
     ["dot"; "-Tpng"; "-o"; path_str output_file; path_str input_file]
     (cwd w) (fs w) = SpawnError) ∧
  cwd (world (dot_to_png env input_file output_file w)) = cwd w ∧
  dbs (world (dot_to_png env input_file output_file w)) = dbs w ∧
  ∃ rc, events (dot_to_png env input_file output_file w) =
          [EvCall (Call_dot_to_png input_file output_file);
           EvSpawn ["dot"; "-Tpng"; "-o"; path_str output_file;
                    path_str input_file] rc].
Proof.
  unfold dot_to_png. rewrite bind_emit. unfold bind.
  rewrite subprocess_run_run. cbn [andb].
  destruct (proc env (clock w) _ (cwd w) (fs w));
    cbn [res world events app cwd dbs]; repeat split;
    try discriminate; eauto.
  intros H. now destruct H.
Qed.

(** ** The working directory *)

Lemma staysR_composes : composes staysR.
Proof.
  split; unfold staysR; [reflexivity|].
  intros w1 e1 w2 e2 w3 H1 H2. now rewrite H2.
Qed.

#[local] Hint Resolve staysR_composes : sat.

Section Stays.

Context (env : Env).

Lemma stays_emit e : sat staysR (emit e).
Proof. intros w. reflexivity. Qed.

Lemma stays_tick : sat staysR tick.
Proof. intros w. reflexivity. Qed.

Lemma stays_set_fs f : sat staysR (set_fs f).
Proof. intros w. reflexivity. Qed.

Lemma stays_set_dbs d : sat staysR (set_dbs d).
Proof. intros w. reflexivity. Qed.

Hint Resolve stays_emit stays_tick stays_set_fs stays_set_dbs : sat.

Ltac stays_auto := repeat (first [solve [auto with sat] | sat_step]).

Lemma stays_open_w p : sat staysR (open_w p).
Proof. unfold open_w. stays_auto. Qed.

Lemma stays_subprocess_run argv check mode :
  sat staysR (subprocess_run env argv check mode).
Proof. unfold subprocess_run. stays_auto. Qed.

Lemma stays_dot_to_png input output :
  sat staysR (dot_to_png env input output).
Proof. unfold dot_to_png, subprocess_run. stays_auto. Qed.

Lemma stays_dot_to_memgraph p labels host port :
  sat staysR (dot_to_memgraph env p labels host port).
Proof.
  unfold dot_to_memgraph, is_memgraph_ready, logging_warning,
    dot_to_mg_graph, read_dot, memgraph_execute.
  stays_auto.
Qed.

Lemma stays_is_cargo_ready : sat staysR (is_cargo_ready env).
Proof. unfold is_cargo_ready, subprocess_run, print. stays_auto. Qed.

(** A generator that returns normally has moved the working directory to
    the directory it was given. *)
Lemma generate_pip_dot_cwd wd output_file w :
  res (generate_pip_dot env wd output_file w) = Ok tt →
  cwd (world (generate_pip_dot env wd output_file w)) = resolve (cwd w) wd.
Proof.
  unfold generate_pip_dot. rewrite bind_emit. cbn [res world].
  intros H. apply bind_Ok_inv in H as [[] [Hc _]].
  rewrite (world_bind_Ok _ _ _ _ Hc).
  assert (Hs : sat staysR
                 (f <- open_w output_file ;;
                  subprocess_run env ["pipdeptree"; "--graph-output"; "dot"]
                    false (ToFile f) ;;
                  ret tt)).
  { sat_step; [apply stays_open_w|]. sat_step; [|sat_step].
    apply stays_subprocess_run. }
  rewrite (Hs (world (os_chdir wd w))).
  rewrite os_chdir_run in *.
  destruct (fs w !! resolve (cwd w) wd) as [[|?]|]; try discriminate.
  reflexivity.
Qed.

End Stays.

(** X17.  When the language-package steps complete, the working directory
    is the directory of the script, and it still is when the cargo check
    is over and the scan of [--rust-dir] begins: a relative [--rust-dir]
    is resolved against the directory of the script. *)
Theorem cargo_scan_starts_in_work_directory env w :
  res (pip_steps env w) = Ok tt →
  cwd (world (is_cargo_ready env (world (pip_steps env w))))
    = WORK_DIRECTORY env ∧
  ∀ d, absolute d = false →
       resolve (cwd (world (is_cargo_ready env (world (pip_steps env w))))) d
         = WORK_DIRECTORY env ++ comps d.
Proof.
  intros H.
  assert (E : cwd (world (is_cargo_ready env (world (pip_steps env w))))
              = WORK_DIRECTORY env).
  { rewrite (stays_is_cargo_ready env (world (pip_steps env w))).
    unfold pip_steps in *.
    apply bind_Ok_inv in H as [[] [Hg H]].
    rewrite (world_bind_Ok _ _ _ _ Hg).
    assert (Hs : sat staysR
                   (dot_to_png env (path_join (work_dir env) "pydeps.dot")
                      (path_join (work_dir env) "pydeps.png") ;;
                    dot_to_memgraph env (path_join (work_dir env) "pydeps.dot")
                      ["Python"] "127.0.0.1" 7687)).
    { sat_step; [apply stays_dot_to_png|apply stays_dot_to_memgraph]. }
    rewrite (Hs _). now rewrite (generate_pip_dot_cwd env _ _ _ Hg). }
  split; [exact E|]. intros d Hd. unfold resolve. now rewrite Hd, E.
Qed.

Lemma cargo_scan_starts_in_work_directory_witness :
  cwd (world (is_cargo_ready env_healthy
                (world (pip_steps env_healthy loaded_world))))
    = WORK_DIRECTORY env_healthy ∧
  ∀ d, absolute d = false →
       resolve (cwd (world (is_cargo_ready env_healthy
                              (world (pip_steps env_healthy loaded_world)))))
               d
         = WORK_DIRECTORY env_healthy ++ comps d.
Proof.
  apply (cargo_scan_starts_in_work_directory env_healthy loaded_world).
  vm_compute. reflexivity.
Defined.

(** ** The endpoint of every statement *)

Lemma shell_rm_run w :
  subprocess_run_shell "rm *.dot* *.png" w =
  Out (Ok tt)
      (MkWorld (clock w) (cwd w)
         (rm_globs ["*.dot*"; "*.png"] (cwd w) (fs w)) (dbs w))
      [EvShell "rm *.dot* *.png"].
Proof. reflexivity. Qed.

Section Endpoint.

Context (env : Env).

Lemma endpoint_emit e :
  (∀ host port stmt ok, e ≠ EvExecute host port stmt ok) →
  sat (emitsR default_endpoint) (emit e).
Proof.
  intros H. apply emits_emit. intros host port stmt ok He.
  now destruct (H host port stmt ok).
Qed.

Lemma endpoint_memgraph_execute stmt :
  sat (emitsR default_endpoint) (memgraph_execute env "127.0.0.1" 7687 stmt).
Proof.
  apply emits_memgraph_execute. intros b host port s ok [= <- <- _ _].
  now split.
Qed.

Hint Resolve emits_tick emits_set_cwd emits_set_fs emits_set_dbs
  endpoint_memgraph_execute : sat.
Hint Extern 1 (sat (emitsR default_endpoint) (emit _)) =>
  apply endpoint_emit; discriminate : sat.

Ltac endpoint_auto := repeat (first [solve [auto with sat] | sat_step]).

Lemma endpoint_subprocess_run argv check mode :
  sat (emitsR default_endpoint) (subprocess_run env argv check mode).
Proof. unfold subprocess_run. endpoint_auto. Qed.

Lemma endpoint_os_chdir p : sat (emitsR default_endpoint) (os_chdir p).
Proof. unfold os_chdir. endpoint_auto. Qed.

Lemma endpoint_open_w p : sat (emitsR default_endpoint) (open_w p).
Proof. unfold open_w. endpoint_auto. Qed.

Lemma endpoint_dot_to_memgraph p labels :
  sat (emitsR default_endpoint)
      (dot_to_memgraph env p labels "127.0.0.1" 7687).
Proof.
  unfold dot_to_memgraph, is_memgraph_ready, logging_warning,
    dot_to_mg_graph, read_dot.
  endpoint_auto.
Qed.

Hint Resolve endpoint_subprocess_run endpoint_os_chdir endpoint_open_w
  endpoint_dot_to_memgraph : sat.

Lemma endpoint_main args : sat (emitsR default_endpoint) (main env args).
Proof.
  unfold main, cpp_part, rust_part, is_cmake_ready, is_cargo_ready,
    cpp_steps, pip_steps, cargo_steps, cargo_module,
    generate_cmake_dot, generate_pip_dot,
    generate_cargo_dot, dot_to_png, os_scandir, os_path_isfile, print.
  endpoint_auto.
Qed.

End Endpoint.

(** X18.  Whatever the arguments, every database statement of a run of the
    script, tried or executed, goes to 127.0.0.1:7687; and with [--clean]
    there is no database statement at all, also when the directory of the
    script cannot be entered. *)
Theorem script_only_default_endpoint env args w :
  Forall default_endpoint (events (script env args w)) ∧
  (clean args = true →
   Forall (λ e, ∀ host port stmt ok, e ≠ EvExecute host port stmt ok)
          (events (script env args w))).
Proof.
  split.
  - change (emitsR default_endpoint w (events (script env args w))
              (world (script env args w))).
    revert w. change (sat (emitsR default_endpoint) (script env args)).
    unfold script. destruct (clean args).
    + sat_step; [apply endpoint_os_chdir|].
      intros z. rewrite shell_rm_run. unfold emitsR. cbn [events].
      constructor; [|constructor]. intros host port stmt ok H.
      discriminate H.
    + sat_step.
      * unfold is_memgraph_ready.
        repeat first [sat_step | apply endpoint_memgraph_execute].
      * sat_step; [|apply endpoint_main].
        sat_step; [apply endpoint_memgraph_execute|sat_step].
  - intros Hc. unfold script. rewrite Hc. unfold bind.
    rewrite os_chdir_run.
    destruct (fs w !! resolve (cwd w) (work_dir env)) as [[|?]|];
      cbn [res world events app]; try rewrite shell_rm_run;
      cbn [res world events app];
      repeat (constructor; [intros host port stmt ok H; discriminate H|]);
      constructor.
Qed.

(** ** Data that is only added to *)

Lemma growsR_composes : composes growsR.
Proof.
  split; unfold growsR.
  - intros w host port. exists []. now rewrite app_nil_r.
  - intros w1 e1 w2 e2 w3 H1 H2 host port.
    destruct (H1 host port) as [a1 E1]. destruct (H2 host port) as [a2 E2].
    exists (a1 ++ a2). now rewrite E2, E1, app_assoc.
Qed.

#[local] Hint Resolve growsR_composes : sat.

Section Grows.

Context (env : Env) (Hno : no_wipe env).

Lemma grows_same {A} (m : M A) :
  (∀ w, dbs (world (m w)) = dbs w) → sat growsR m.
Proof.
  intros H w host port. exists []. now rewrite H, app_nil_r.
Qed.

Lemma grows_emit e : sat growsR (emit e).
Proof. now apply grows_same. Qed.

Lemma grows_tick : sat growsR tick.
Proof. now apply grows_same. Qed.

Lemma grows_set_cwd d : sat growsR (set_cwd d).
Proof. now apply grows_same. Qed.

Lemma grows_set_fs f : sat growsR (set_fs f).
Proof. now apply grows_same. Qed.

(** A statement other than the wipe only adds. *)
Lemma grows_memgraph_execute host port stmt :
  stmt ≠ delete_stmt → sat growsR (memgraph_execute env host port stmt).
Proof.
  intros Hs w h p. rewrite memgraph_execute_run.
  destruct (db_ok env (clock w) host port stmt); cbn [world dbs].
  - rewrite db_content_insert.
    destruct (decide ((host, port) = (h, p))) as [[= <- <-]|].
    + unfold apply_stmt. rewrite decide_False by exact Hs.
      destruct (decide (stmt = probe_stmt)).
      * exists []. now rewrite app_nil_r.
      * now exists [stmt].
    + exists []. now rewrite app_nil_r.
  - exists []. now rewrite app_nil_r.
Qed.

Hint Resolve grows_emit grows_tick grows_set_cwd grows_set_fs : sat.

Ltac grows_auto := repeat (first [solve [auto with sat] | sat_step]).

Lemma grows_subprocess_run argv check mode :
  sat growsR (subprocess_run env argv check mode).
Proof. unfold subprocess_run. grows_auto. Qed.

Lemma grows_os_chdir p : sat growsR (os_chdir p).
Proof. unfold os_chdir. grows_auto. Qed.

Lemma grows_open_w p : sat growsR (open_w p).
Proof. unfold open_w. grows_auto. Qed.

Lemma grows_is_memgraph_ready host port :
  sat growsR (is_memgraph_ready env host port).
Proof.
  unfold is_memgraph_ready.
  sat_step; [|sat_step]. sat_step; [|sat_step].
  apply grows_memgraph_execute. discriminate.
Qed.

Lemma grows_dot_to_memgraph p labels host port :
  sat growsR (dot_to_memgraph env p labels host port).
Proof.
  unfold dot_to_memgraph, logging_warning.
  sat_step; [apply grows_emit|].
  sat_step; [apply grows_is_memgraph_ready|].
  sat_step; [apply grows_emit|].
  apply sat_bind; [auto with sat| |].
  - unfold dot_to_mg_graph, read_dot. grows_auto.
  - intros g. apply sat_for_each; [auto with sat|].
    intros q Hq. apply grows_memgraph_execute. now apply (Hno g).
Qed.

Hint Resolve grows_subprocess_run grows_os_chdir grows_open_w
  grows_dot_to_memgraph : sat.

Lemma grows_main args : sat growsR (main env args).
Proof.
  unfold main, cpp_part, rust_part, is_cmake_ready, is_cargo_ready,
    cpp_steps, pip_steps, cargo_steps, cargo_module,
    generate_cmake_dot, generate_pip_dot,
    generate_cargo_dot, dot_to_png, os_scandir, os_path_isfile, print.
  grows_auto.
Qed.

End Grows.

(** X19.  [main] itself never removes anything from the database: only the
    wipe at program start does, and that is skipped when the database does
    not answer the startup probe.  So in a run that finds the database
    down at start, whatever later loads of the run get through is added
    after the data that was already stored, at every endpoint. *)
Theorem unreachable_start_accumulates env args w :
  clean args = false →
  db_ok env (clock w) MG_HOST MG_PORT probe_stmt = false →
  no_wipe env →
  (∀ host port, ∃ added,
     db_content (dbs (world (script env args w))) host port =
     db_content (dbs w) host port ++ added) ∧
  Forall (λ e, e ≠ EvExecute MG_HOST MG_PORT delete_stmt true)
         (events (script env args w)).
Proof.
  intros Hc Hp Hno. split.
  - assert (Hr : res (is_memgraph_ready env MG_HOST MG_PORT w) = Ok false)
      by (rewrite is_memgraph_ready_run; cbn [res]; now rewrite Hp).
    unfold script. rewrite Hc. rewrite (world_bind_Ok _ _ _ _ Hr).
    rewrite (world_bind_Ok (ret tt) _ _ tt) by reflexivity.
    cbn [ret world]. intros host port.
    destruct (grows_main env Hno args
                (world (is_memgraph_ready env MG_HOST MG_PORT w)) host port)
      as [added E].
    exists added. rewrite E. f_equal. apply is_memgraph_ready_content.
  - unfold script. rewrite Hc. unfold bind at 1.
    rewrite is_memgraph_ready_run, Hp. cbn [res world events].
    constructor; [discriminate|]. unfold bind. cbn [ret res world events app].
    assert (Hm : sat (emitsR (λ e, e ≠ EvExecute MG_HOST MG_PORT
                                       delete_stmt true))
                   (main env args)).
    { unfold main, cpp_part, rust_part, is_cmake_ready, is_cargo_ready,
        cpp_steps, pip_steps, cargo_steps, cargo_module,
        generate_cmake_dot, generate_pip_dot, generate_cargo_dot,
        dot_to_png, dot_to_memgraph, is_memgraph_ready, logging_warning,
        dot_to_mg_graph, read_dot, os_scandir, os_path_isfile, print,
        os_chdir, open_w, subprocess_run.
      repeat first
        [ sat_step
        | apply emits_emit; discriminate
        | apply emits_tick | apply emits_set_cwd | apply emits_set_fs
        | apply emits_memgraph_execute; intros b; discriminate
        | match goal with
          | Hq : ?q ∈ nx_to_cypher env ?g |- _ =>
              apply emits_memgraph_execute; intros b [= -> _];
              now apply (Hno g _ Hq)
          end ]. }
    apply Hm.
Qed.

Lemma unreachable_start_accumulates_witness :
  (∀ host port, ∃ added,
     db_content (dbs (world (script env_db_late plain_args old_data_world)))
       host port =
     db_content (dbs old_data_world) host port ++ added) ∧
  Forall (λ e, e ≠ EvExecute MG_HOST MG_PORT delete_stmt true)
         (events (script env_db_late plain_args old_data_world)).
Proof.
  apply (unreachable_start_accumulates env_db_late plain_args old_data_world).
  - reflexivity.
  - reflexivity.
  - intros g q Hq. cbn [env_db_late nx_to_cypher] in Hq.
    apply elem_of_map in Hq as [n [-> _]]. discriminate.
Defined.

(** The same run evaluated: the old node is still there, before the two
    nodes of this run. *)
Lemma unreachable_start_keeps_old_node :
  db_content (dbs (world (script env_db_late plain_args old_data_world)))
    MG_HOST MG_PORT = ["CREATE (:old);"; "CREATE (:a);"; "CREATE (:b);"].
Proof. vm_compute. reflexivity. Qed.

(** ** What the wildcards match *)

Lemma glob_star_unfold p s :
  glob (String "*" p) s =
  glob p s || match s with
              | EmptyString => false
              | String _ s' => glob (String "*" p) s'
              end.
Proof. destruct s; reflexivity. Qed.

Lemma glob_char c p s :
  Ascii.eqb c "*" = false →
  glob (String c p) s =
  match s with
  | String d s' => Ascii.eqb c d && glob p s'
  | EmptyString => false
  end.
Proof. intros H. simpl. now rewrite H. Qed.

Lemma glob_star_split p s :
  glob (String "*" p) s = true → ∃ a b, s = a +:+ b ∧ glob p b = true.
Proof.
  induction s as [|c s IH]; rewrite glob_star_unfold; intros H.
  - rewrite orb_false_r in H. now exists EmptyString, EmptyString.
  - apply orb_true_iff in H as [H|H].
    + now exists EmptyString, (String c s).
    + destruct (IH H) as [a [b [-> Hb]]]. now exists (String c a), b.
Qed.

Lemma glob_any s : glob "*" s = true.
Proof.
  induction s as [|c s IH]; rewrite glob_star_unfold; [reflexivity|].
  rewrite IH. apply orb_true_r.
Qed.

Lemma append_nil_r (s : string) : s +:+ EmptyString = s.
Proof. induction s; [reflexivity|]. rewrite append_cons. now f_equal. Qed.

(** [*.png] matches the names that end in [.png]. *)
Lemma glob_png s : glob "*.png" s = true ↔ has_extension ".png" s.
Proof.
  split.
  - intros H. apply glob_star_split in H as [a [b [-> Hb]]].
    exists a. f_equal.
    do 4 (destruct b as [|? b]; [discriminate|];
          rewrite glob_char in Hb by reflexivity;
          apply andb_true_iff in Hb as [Hc Hb];
          apply Ascii.eqb_eq in Hc as <-).
    destruct b; [reflexivity|discriminate].
  - intros [base ->]. now apply glob_star_app.
Qed.

(** [*.dot*] matches the names in which [.dot] occurs. *)
Lemma glob_dot s : glob "*.dot*" s = true ↔ mentions ".dot" s.
Proof.
  split.
  - intros H. apply glob_star_split in H as [a [b [-> Hb]]].
    do 4 (destruct b as [|? b]; [discriminate|];
          rewrite glob_char in Hb by reflexivity;
          apply andb_true_iff in Hb as [Hc Hb];
          apply Ascii.eqb_eq in Hc as <-).
    now exists a, b.
  - intros [a [b ->]]. apply glob_star_app.
    do 4 (rewrite append_cons, glob_char by reflexivity;
          rewrite Ascii.eqb_refl; cbn [andb]).
    rewrite append_nil. apply glob_any.
Qed.

Lemma rm_target_iff dir k n :
  rm_target ["*.dot*"; "*.png"] dir k n = true ↔
  ∃ name text, k = dir ++ [name] ∧ n = File text ∧ hidden name = false ∧
               (mentions ".dot" name ∨ has_extension ".png" name).
Proof.
  unfold rm_target. split.
  - destruct (strip_prefix dir k) as [[|name [|? ?]]|] eqn:E; try discriminate.
    apply strip_prefix_Some in E as ->. intros H.
    apply andb_true_iff in H as [Hf H]. destruct n as [|text]; [discriminate|].
    exists name, text. split; [reflexivity|]. split; [reflexivity|].
    cbn [existsb] in H. rewrite orb_false_r in H. unfold sh_match in H.
    destruct (hidden name) eqn:Hh.
    + cbn [is_prefix Ascii.eqb] in H. discriminate.
    + split; [reflexivity|]. cbn [andb] in H.
      apply orb_true_iff in H as [H|H];
        [left; now apply glob_dot|right; now apply glob_png].
  - intros [name [text [-> [-> [Hh H]]]]]. rewrite strip_prefix_app.
    cbn [is_file andb existsb]. unfold sh_match. rewrite Hh. cbn [andb].
    rewrite orb_false_r. apply orb_true_iff.
    destruct H as [H|H]; [left; now apply glob_dot|right; now apply glob_png].
Qed.



(** ** The names of the artifacts *)

Lemma length_append (a b : string) :
  String.length (a +:+ b) = (String.length a + String.length b)%nat.
Proof. induction a; [reflexivity|]. rewrite append_cons. simpl. now f_equal. Qed.

(** Two texts that end in tails of the same length are equal piece by
    piece. *)
Lemma append_inv_tail (a b s t : string) :
  String.length s = String.length t → a +:+ s = b +:+ t → a = b ∧ s = t.
Proof.
  intros Hl. revert b. induction a as [|c a IH]; intros [|d b] H.
  - now rewrite !append_nil in H.
  - rewrite append_nil, append_cons in H. subst s.
    simpl in Hl. rewrite length_append in Hl. lia.
  - rewrite append_nil, append_cons in H. subst t.
    simpl in Hl. rewrite length_append in Hl. lia.
  - rewrite !append_cons in H. injection H as Hc H. subst d.
    destruct (IH b H) as [Hab Hst]. now subst.
Qed.

(** X21.  The artifacts of the cargo modules are named apart: two
    subdirectories share a DOT file or an image only if they have the same
    name, no DOT file of a module is the image of a module, and none of
    them is one of the four files of the native-build and language-package
    steps. *)
Theorem artifact_names_distinct env n1 n2 :
  (path_join (work_dir env) ("rsdeps_" +:+ n1 +:+ ".dot") =
   path_join (work_dir env) ("rsdeps_" +:+ n2 +:+ ".dot") → n1 = n2) ∧
  (path_join (work_dir env) ("rsdeps_" +:+ n1 +:+ ".png") =
   path_join (work_dir env) ("rsdeps_" +:+ n2 +:+ ".png") → n1 = n2) ∧
  path_join (work_dir env) ("rsdeps_" +:+ n1 +:+ ".dot") ≠
  path_join (work_dir env) ("rsdeps_" +:+ n2 +:+ ".png") ∧
  ∀ ext file,
    file ∈ ["cppdeps.dot"; "cppdeps.png"; "pydeps.dot"; "pydeps.png"] →
    path_join (work_dir env) ("rsdeps_" +:+ n1 +:+ ext) ≠
    path_join (work_dir env) file.
Proof.
  assert (Hinj : ∀ x y, "rsdeps_" +:+ x = "rsdeps_" +:+ y → x = y).
  { intros x y H. rewrite !append_cons, !append_nil in H. now injection H. }
  split; [|split; [|split]].
  - intros H. apply path_join_inj, Hinj in H.
    now apply (append_inv_tail n1 n2 ".dot" ".dot") in H as [-> _].
  - intros H. apply path_join_inj, Hinj in H.
    now apply (append_inv_tail n1 n2 ".png" ".png") in H as [-> _].
  - intros H. apply path_join_inj, Hinj in H.
    apply (append_inv_tail n1 n2 ".dot" ".png") in H as [_ H];
      [discriminate|reflexivity].
  - intros ext file Hf H. apply path_join_inj in H.
    rewrite append_cons in H. elems Hf; discriminate H.
Qed.

(** ** The checks that run anyway *)

(** X22.  Both readiness checks are run whether or not their directory was
    given.  Without [--cpp-dir] the native-build part is the cmake check
    and nothing else, and it returns normally.  Without [--rust-dir] the
    cargo part is the cargo check and nothing else, so it raises exactly
    when that check raises: a failing plugin listing ends the run with an
    exception although no Rust directory was given. *)
Theorem readiness_checks_run_without_directories env args w :
  (cpp_dir args = None →
   res (cpp_part env args w) = Ok tt ∧
   events (cpp_part env args w) = events (is_cmake_ready env w)) ∧
  (rust_dir args = None →
   events (rust_part env args w) = events (is_cargo_ready env w) ∧
   (∀ e, res (rust_part env args w) = Raise e ↔
         res (is_cargo_ready env w) = Raise e) ∧
   (res (rust_part env args w) = Ok tt ↔
    ∃ b, res (is_cargo_ready env w) = Ok b)).
Proof.
  split.
  - intros Hd. unfold cpp_part, bind. rewrite Hd.
    destruct (is_cmake_ready_total env w) as [b Hb]. rewrite Hb.
    destruct b; cbn [ret res world events]; now rewrite app_nil_r.
  - intros Hd. unfold rust_part, bind. rewrite Hd.
    destruct (res (is_cargo_ready env w)) as [b|e] eqn:E.
    + destruct b; cbn [ret res world events]; rewrite app_nil_r;
        (split; [reflexivity|split;
           [intros e0; split; discriminate
           |split; [eauto|reflexivity]]]).
    + cbn [res events].
      split; [reflexivity|split;
        [intros e0; split; intros [= ->]; reflexivity
        |split; [discriminate|intros [b Hb]; discriminate]]].
Qed.

(** ** A relative directory of Rust projects *)

Lemma generate_cargo_dot_cwd env wd output_file w :
  res (generate_cargo_dot env wd output_file w) = Ok tt →
  cwd (world (generate_cargo_dot env wd output_file w)) = resolve (cwd w) wd.
Proof.
  unfold generate_cargo_dot. rewrite bind_emit. cbn [res world].
  intros H. apply bind_Ok_inv in H as [[] [Hc _]].
  rewrite (world_bind_Ok _ _ _ _ Hc).
  assert (Hs : sat staysR
                 (f <- open_w output_file ;;
                  subprocess_run env ["cargo"; "deps"] false (ToFile f) ;;
                  ret tt)).
  { sat_step; [apply stays_open_w|]. sat_step; [|sat_step].
    apply stays_subprocess_run. }
  rewrite (Hs (world (os_chdir wd w))).
  rewrite os_chdir_run in *.
  destruct (fs w !! resolve (cwd w) wd) as [[|?]|]; try discriminate.
  reflexivity.
Qed.

(** X23.  With a relative [--rust-dir], a module that has been processed
    leaves the working directory inside itself, and the manifest of the
    next module is then looked for below that directory: unless there is
    such a file there, the next module is passed over in silence, whether
    or not it has a manifest of its own. *)
Theorem relative_rust_dir_skips_later_modules env d n1 n2 w text :
  absolute d = false →
  fs w !! (cwd w ++ comps d ++ [n1; "Cargo.toml"]) = Some (File text) →
  res (cargo_module env (path_join d n1) w) = Ok tt →
  cwd (world (cargo_module env (path_join d n1) w))
    = cwd w ++ comps d ++ [n1] ∧
  ((∀ t, fs (world (cargo_module env (path_join d n1) w))
           !! (cwd w ++ comps d ++ [n1] ++ comps d ++ [n2; "Cargo.toml"])
         ≠ Some (File t)) →
   cargo_module env (path_join d n2)
     (world (cargo_module env (path_join d n1) w)) =
   Out (Ok tt) (world (cargo_module env (path_join d n1) w)) []).
Proof.
  intros Hd Hf Hr.
  assert (Hres : ∀ z n, resolve (cwd z) (path_join (path_join d n) "Cargo.toml")
                        = cwd z ++ comps d ++ [n; "Cargo.toml"]).
  { intros z n. unfold resolve, path_join. cbn [absolute comps].
    rewrite Hd. now rewrite <- !app_assoc. }
  assert (Hcwd : cwd (world (cargo_module env (path_join d n1) w))
                 = cwd w ++ comps d ++ [n1]).
  { unfold cargo_module in *.
    assert (E : res (os_path_isfile (path_join (path_join d n1) "Cargo.toml") w)
                = Ok true)
      by (rewrite os_path_isfile_run; cbn [res]; now rewrite Hres, Hf).
    rewrite (res_bind_Ok _ _ _ _ E) in Hr.
    rewrite (world_bind_Ok _ _ _ _ E).
    rewrite os_path_isfile_run in *. cbn [world negb] in *.
    apply bind_Ok_inv in Hr as [[] [Hg _]].
    rewrite (world_bind_Ok _ _ _ _ Hg).
    match goal with
    | |- cwd (world ((?m1 ;; ?m2) ?z)) = _ =>
        assert (Hs : sat staysR (m1 ;; m2))
          by (sat_step; [apply stays_dot_to_png|apply stays_dot_to_memgraph]);
        rewrite (Hs z)
    end.
    rewrite (generate_cargo_dot_cwd _ _ _ _ Hg).
    unfold resolve, path_join. cbn [absolute comps]. now rewrite Hd. }
  split; [exact Hcwd|]. intros Hno. apply cargo_module_skip.
  intros t. rewrite Hres, Hcwd. rewrite <- !app_assoc. apply Hno.
Qed.

Lemma relative_rust_dir_skips_later_modules_witness :
  cwd (world (cargo_module env_healthy (path_join (Path false ["rust"]) "b")
                relative_rust_world))
    = cwd relative_rust_world ++ comps (Path false ["rust"]) ++ ["b"] ∧
  ((∀ t, fs (world (cargo_module env_healthy
                      (path_join (Path false ["rust"]) "b")
                      relative_rust_world))
           !! (cwd relative_rust_world ++ comps (Path false ["rust"]) ++
               ["b"] ++ comps (Path false ["rust"]) ++ ["a"; "Cargo.toml"])
         ≠ Some (File t)) →
   cargo_module env_healthy (path_join (Path false ["rust"]) "a")
     (world (cargo_module env_healthy (path_join (Path false ["rust"]) "b")
               relative_rust_world)) =
   Out (Ok tt)
     (world (cargo_module env_healthy (path_join (Path false ["rust"]) "b")
               relative_rust_world)) []).
Proof.
  apply (relative_rust_dir_skips_later_modules env_healthy
           (Path false ["rust"]) "b" "a" relative_rust_world "[package]").
  - reflexivity.
  - reflexivity.
  - vm_compute. reflexivity.
Defined.

(** ** Loads that write nothing, and a wipe that fails *)

(** X24.  When the probe gets through and the graph cannot be had, because
    the DOT file is missing or does not parse or a node has no label,
    [dot_to_memgraph] raises that very exception before its first
    statement: nothing is sent to the endpoint it was given and stored
    data is as it was. *)
Theorem dot_to_memgraph_fails_before_writing env p labels host port w e :
  db_ok env (clock w) "127.0.0.1" 7687 probe_stmt = true →
  res (dot_to_mg_graph env p labels w) = Raise e →
  res (dot_to_memgraph env p labels host port w) = Raise e ∧
  events (dot_to_memgraph env p labels host port w) =
    [EvCall (Call_dot_to_memgraph p labels host port);
     EvExecute "127.0.0.1" 7687 probe_stmt true;
     EvReadDot (resolve (cwd w) p)] ∧
  ∀ h q, db_content (dbs (world (dot_to_memgraph env p labels host port w)))
           h q = db_content (dbs w) h q.
Proof.
  intros Hp Hg0.
  assert (Hg : res (dot_to_mg_graph env p labels
                      (world (is_memgraph_ready env "127.0.0.1" 7687 w)))
               = Raise e).
  { rewrite dot_to_mg_graph_run in *. rewrite is_memgraph_ready_run.
    cbn [res world fs cwd] in *. exact Hg0. }
  unfold dot_to_memgraph. rewrite bind_emit.
  assert (Hr : res (is_memgraph_ready env "127.0.0.1" 7687 w) = Ok true)
    by (rewrite is_memgraph_ready_run; cbn [res]; now rewrite Hp).
  rewrite (bind_Ok _ _ _ _ Hr). cbn [negb].
  rewrite (bind_Raise _ _ _ _ Hg). cbn [res world events].
  split; [reflexivity|]. split.
  - rewrite dot_to_mg_graph_run, is_memgraph_ready_run.
    cbn [events world cwd]. now rewrite Hp.
  - intros h q. rewrite dot_to_mg_graph_run. cbn [world].
    apply is_memgraph_ready_content.
Qed.

Lemma dot_to_memgraph_fails_before_writing_witness :
  res (dot_to_memgraph env_healthy pydeps_path ["Python"] "10.0.0.5" 7688
         empty_dir_world) = Raise FileNotFoundError ∧
  events (dot_to_memgraph env_healthy pydeps_path ["Python"] "10.0.0.5" 7688
            empty_dir_world) =
    [EvCall (Call_dot_to_memgraph pydeps_path ["Python"] "10.0.0.5" 7688);
     EvExecute "127.0.0.1" 7687 probe_stmt true;
     EvReadDot (resolve (cwd empty_dir_world) pydeps_path)] ∧
  ∀ h q,
    db_content
      (dbs (world (dot_to_memgraph env_healthy pydeps_path ["Python"]
                     "10.0.0.5" 7688 empty_dir_world))) h q
    = db_content (dbs empty_dir_world) h q.
Proof.
  apply (dot_to_memgraph_fails_before_writing env_healthy pydeps_path
           ["Python"] "10.0.0.5" 7688 empty_dir_world FileNotFoundError).
  - reflexivity.
  - vm_compute. reflexivity.
Defined.

(** X25.  In analyze mode, when the startup probe gets through and the
    wipe that follows it does not, the script ends with the exception of
    the wipe: [main] is never entered, no tool is run, and the stored data
    is as it was. *)
Theorem failed_wipe_ends_the_run env args w :
  clean args = false →
  db_ok env (clock w) MG_HOST MG_PORT probe_stmt = true →
  db_ok env (S (clock w)) MG_HOST MG_PORT delete_stmt = false →
  res (script env args w) = Raise DatabaseError ∧
  events (script env args w) =
    [EvExecute MG_HOST MG_PORT probe_stmt true;
     EvExecute MG_HOST MG_PORT delete_stmt false] ∧
  ∀ h q, db_content (dbs (world (script env args w))) h q
         = db_content (dbs w) h q.
Proof.
  intros Hc Hp Hd. unfold script. rewrite Hc.
  assert (Hr : res (is_memgraph_ready env MG_HOST MG_PORT w) = Ok true)
    by (rewrite is_memgraph_ready_run; cbn [res]; now rewrite Hp).
  rewrite (bind_Ok _ _ _ _ Hr).
  assert (Hw : res (memgraph_execute env MG_HOST MG_PORT delete_stmt
                      (world (is_memgraph_ready env MG_HOST MG_PORT w)))
               = Raise DatabaseError).
  { rewrite memgraph_execute_run, is_memgraph_ready_run. cbn [world clock].
    now rewrite Hd. }
  rewrite (bind_Raise _ _ _ _ Hw). cbn [res world events].
  split; [reflexivity|]. split.
  - rewrite memgraph_execute_run, is_memgraph_ready_run.
    cbn [world clock events]. now rewrite Hd, Hp.
  - intros h q. rewrite memgraph_execute_run.
    rewrite is_memgraph_ready_run at 1. cbn [world clock]. rewrite Hd.
    cbn [world dbs]. rewrite is_memgraph_ready_run. cbn [world dbs].
    rewrite Hp. rewrite db_content_insert.
    now destruct (decide ((MG_HOST, MG_PORT) = (h, q))) as [[= <- <-]|].
Qed.

Lemma failed_wipe_ends_the_run_witness :
  res (script env_db_probe_only plain_args old_data_world)
    = Raise DatabaseError ∧
  events (script env_db_probe_only plain_args old_data_world) =
    [EvExecute MG_HOST MG_PORT probe_stmt true;
     EvExecute MG_HOST MG_PORT delete_stmt false] ∧
  ∀ h q,
    db_content (dbs (world (script env_db_probe_only plain_args
                              old_data_world))) h q
    = db_content (dbs old_data_world) h q.
Proof.
  apply (failed_wipe_ends_the_run env_db_probe_only plain_args
           old_data_world); reflexivity.
Defined.
